(** * libosdev: root filesystem lifecycle, filesystem registry, image creation

    A shallow embedding of the Go packages [commands], [disk] and [pkg] of
    libosdev.  Every call that leaves the process (a system call, a search of
    the PATH, a spawned program) is an [Event]; a [World] is an oracle that
    decides, from the history so far, how each event turns out.  Functions of
    the library become state-passing functions over the history, so that
    ordering properties ("before any process is spawned", "stopped before the
    error is returned") are statements about lists of events. *)

From Stdlib Require Import ZArith List String Ascii Bool Lia DecimalString.
From stdpp Require Import gmap strings.
Import ListNotations.
Local Open Scope Z_scope.
Local Open Scope string_scope.
Local Open Scope list_scope.

(** ** Strings *)

(** [strings.Split(s, sep)] for a one-byte separator: the pieces between
    the separators, at least one piece, empty pieces kept. *)
Fixpoint Split (sep : ascii) (s : string) : list string :=
  match s with
  | EmptyString => [EmptyString]
  | String c rest =>
      if Ascii.eqb c sep then EmptyString :: Split sep rest
      else match Split sep rest with
           | [] => [String c EmptyString]
           | piece :: pieces => String c piece :: pieces
           end
  end.

(** [strings.Join(elems, sep)]. *)
Fixpoint JoinWith (sep : string) (elems : list string) : string :=
  match elems with
  | [] => EmptyString
  | [x] => x
  | x :: rest => x +:+ sep +:+ JoinWith sep rest
  end.

(** [strings.Contains(s, "/")]. *)
Fixpoint ContainsSlash (s : string) : bool :=
  match s with
  | EmptyString => false
  | String c rest => Ascii.eqb c "/" || ContainsSlash rest
  end.

Definition newline : ascii := Ascii.ascii_of_nat 10.

(** ** Go's path/filepath on Unix

    Lexical path functions of the Go standard library, as libosdev uses
    them.  [Clean] works on the list of path elements: empty elements and
    "." are dropped, ".." removes the element before it when there is one,
    is dropped at the root and is kept at the front of a relative path. *)
Module filepath.

Definition IsAbs (path : string) : bool :=
  match path with
  | String c _ => Ascii.eqb c "/"
  | EmptyString => false
  end.

(** The elements kept so far are held last element first. *)
Definition clean_step (rooted : bool) (out : list string) (elem : string)
  : list string :=
  if String.eqb elem "" then out
  else if String.eqb elem "." then out
  else if String.eqb elem ".." then
    match out with
    | top :: below =>
        if String.eqb top ".." then elem :: out else below
    | [] => if rooted then [] else [elem]
    end
  else elem :: out.

Definition Clean (path : string) : string :=
  if String.eqb path "" then "."
  else
    let rooted := IsAbs path in
    let out := rev (fold_left (clean_step rooted) (Split "/" path) []) in
    if rooted then "/" +:+ JoinWith "/" out
    else match out with
         | [] => "."
         | _ => JoinWith "/" out
         end.

(** The part of [path] up to and including its last separator. *)
Fixpoint dir_prefix (path : string) : string :=
  match path with
  | EmptyString => EmptyString
  | String c rest =>
      if ContainsSlash path then String c (dir_prefix rest) else EmptyString
  end.

Definition Dir (path : string) : string := Clean (dir_prefix path).

(** [Join] ignores the leading empty elements; with nothing left the
    result is the empty string, otherwise the rest is joined by "/" and
    cleaned. *)
Fixpoint Join (elem : list string) : string :=
  match elem with
  | [] => EmptyString
  | e :: rest =>
      if String.eqb e "" then Join rest else Clean (JoinWith "/" elem)
  end.

End filepath.

(** ** Numbers and constants *)

(** Go's [int] on the 64-bit platforms libosdev is built for: arithmetic
    wraps around in two's complement. *)
Definition int_wrap (z : Z) : Z := (z + 2 ^ 63) mod 2 ^ 64 - 2 ^ 63.
Definition int_mul (a b : Z) : Z := int_wrap (a * b).
Definition int64 (z : Z) : Z := int_wrap z.
Definition MaxInt : Z := 2 ^ 63 - 1.
Definition MinInt : Z := - 2 ^ 63.

(** The verb %d of package fmt. *)
Definition fmt_d (z : Z) : string := NilZero.string_of_int (Z.to_int z).

Definition dquote : string := String (Ascii.ascii_of_nat 34) EmptyString.

(** Open flags of package os on Linux. *)
Definition O_WRONLY : Z := 1.
Definition O_CREATE : Z := 64.
Definition O_TRUNC : Z := 512.

(** CompressionType is the possible compression type to be used with a
    LiveOS image build. *)
Definition CompressionType := string.
Definition CompressionGzip : CompressionType := "gzip".
Definition CompressionXZ : CompressionType := "xz".

(** ** The outside world *)

(** Go's [error] values.  The errors libosdev makes itself are formatted
    messages; the errors of the operating system are opaque to it. *)
Definition error := string.

(** [os.FileMode]: a 32-bit set of flags, bit 31 being [ModeDir]. *)
Definition FileMode := Z.
Definition ModeDir : FileMode := Z.shiftl 1 31.
Definition IsDir (m : FileMode) : bool := negb (Z.eqb (Z.land m ModeDir) 0).

(** [os.FileInfo], as far as libosdev looks at it. *)
Record FileInfo := mkFileInfo {
  Name : string;
  Mode : FileMode;
  ModTime : Z
}.

(** [exec.Cmd]: the resolved program, the argument vector (the program
    name first) and the working directory, empty for the caller's own. *)
Record Cmd := mkCmd {
  Path : string;
  Args : list string;
  Dir : string
}.

(** Modelled from the spec: the device nodes of disk.CreateDeviceNode, whose
    file is not part of the sources at hand ("create well-known device nodes
    (random, urandom) under a root"). *)
Inductive DevNode := DevNodeRandom | DevNodeURandom.

(** What the library asks of the world.  An open file is named by the path
    it was opened with. *)
Inductive Event :=
| EvStat (path : string)
| EvOpen (path : string)
| EvOpenFile (path : string) (flag : Z) (perm : FileMode)
| EvCopy (dst src : string)
| EvClose (path : string)
| EvChtimes (path : string) (atime mtime : Z)
| EvFtruncate (path : string) (size : Z)
| EvReadDir (path : string)
| EvReadAll (path : string)
| EvRemove (path : string)
| EvMkdirAll (path : string) (perm : FileMode)
| EvSymlink (oldname newname : string)
| EvGetwd
| EvLookPath (file : string)
| EvRun (c : Cmd)
| EvBindMount (source target : string)
| EvUnmount (target : string)
| EvCreateDeviceNode (root : string) (node : DevNode).

(** The history: each event with its outcome, oldest first. *)
Definition Trace := list (Event * option error).

(** A world answers every event from the history before it: whether it
    fails, and the data a successful query returns. *)
Record World := mkWorld {
  fails : Trace -> Event -> option error;
  fileinfo : Trace -> string -> FileInfo;
  dirents : Trace -> string -> list FileInfo;
  contents : Trace -> string -> string;
  lookpath : Trace -> string -> string;
  getwd : Trace -> string
}.

(** Computations over the history. *)
Definition IO (A : Type) : Type := Trace -> A * Trace.

Definition ret {A} (a : A) : IO A := fun t => (a, t).

Definition bind {A B} (m : IO A) (k : A -> IO B) : IO B :=
  fun t => let (a, t') := m t in k a t'.

Notation "x <- m ;; k" := (bind m (fun x => k))
  (at level 100, m at next level, right associativity).
Notation "m ;;; k" := (bind m (fun _ => k))
  (at level 100, right associativity).

(** The entries of the history that spawn a process. *)
Definition is_spawn (en : Event * option error) : bool :=
  match fst en with
  | EvRun _ => true
  | _ => false
  end.

Section Library.

Variable w : World.

(** A call whose only result is an error or nil. *)
Definition call (ev : Event) : IO (option error) :=
  fun t => let r := fails w t ev in (r, t ++ [(ev, r)]).

(** A call that returns data when it succeeds. *)
Definition query {A} (ev : Event) (data : Trace -> A) : IO (error + A) :=
  fun t =>
    let r := fails w t ev in
    (match r with Some err => inl err | None => inr (data t) end,
     t ++ [(ev, r)]).

Definition os_Stat (name : string) : IO (error + FileInfo) :=
  query (EvStat name) (fun t => fileinfo w t name).

Definition os_Getwd : IO (error + string) :=
  query EvGetwd (getwd w).

Definition exec_LookPath (file : string) : IO (error + string) :=
  query (EvLookPath file) (fun t => lookpath w t file).

Definition ioutil_ReadDir (dirname : string) : IO (error + list FileInfo) :=
  query (EvReadDir dirname) (fun t => dirents w t dirname).

Definition ioutil_ReadAll (f : string) : IO (error + string) :=
  query (EvReadAll f) (fun t => contents w t f).

(** [filepath.Abs]: an absolute path is cleaned, a relative one is joined
    to the working directory, which may not be available. *)
Definition filepath_Abs (path : string) : IO (error + string) :=
  if filepath.IsAbs path then ret (inr (filepath.Clean path))
  else
    r <- os_Getwd ;;
    match r with
    | inl err => ret (inl err)
    | inr wd => ret (inr (filepath.Join [wd; path]))
    end.

(** "if err != nil { return ... }": go on only after a success. *)
Definition guard {A} (m : IO (option error)) (fail : error -> A) (k : IO A)
  : IO A :=
  r <- m ;;
  match r with
  | Some err => ret (fail err)
  | None => k
  end.

(** ** Package commands

    The streams a command inherits (stdout, stderr, stdin) are package
    variables that no function below reads back; they are left out. *)

(** Internal helper for the Exec functions: search the PATH when the name
    has no separator, then build the command.  A name found on the PATH
    comes back with its directory, so exec.Command does not search again. *)
Definition execHelper (command : string) (args : list string)
  : IO (error + Cmd) :=
  if negb (ContainsSlash command) then
    r <- exec_LookPath command ;;
    match r with
    | inl err => ret (inl err)
    | inr found => ret (inr (mkCmd found (found :: args) ""))
    end
  else ret (inr (mkCmd command (command :: args) "")).

Definition Run (c : Cmd) : IO (option error) := call (EvRun c).

Definition ExecStdoutArgs (command : string) (args : list string)
  : IO (option error) :=
  r <- execHelper command args ;;
  match r with
  | inl err => ret (Some err)
  | inr c => Run c
  end.

Definition ExecStdoutArgsDir (dir command : string) (args : list string)
  : IO (option error) :=
  r <- execHelper command args ;;
  match r with
  | inl err => ret (Some err)
  | inr c => Run (mkCmd (Path c) (Args c) dir)
  end.

Definition ChrootExec (dir command : string) : IO (option error) :=
  ExecStdoutArgs "chroot" [dir; "/bin/sh"; "-c"; command].

Definition AddGroup (root groupName : string) (groupID : Z)
  : IO (option error) :=
  ChrootExec root
    ("/usr/sbin/groupadd -g " +:+ fmt_d groupID +:+ " "
       +:+ dquote +:+ groupName +:+ dquote).

Definition AddUser (root userName gecos home shell : string) (uid gid : Z)
  : IO (option error) :=
  ChrootExec root
    ("/usr/sbin/useradd -m -d " +:+ dquote +:+ home +:+ dquote
       +:+ " -s " +:+ dquote +:+ shell +:+ dquote
       +:+ " -u " +:+ fmt_d uid +:+ " -g " +:+ fmt_d gid +:+ " "
       +:+ dquote +:+ userName +:+ dquote
       +:+ " -c " +:+ dquote +:+ gecos +:+ dquote).

Definition AddSystemUser (root userName gecos home shell : string)
  (uid gid : Z) : IO (option error) :=
  ChrootExec root
    ("/usr/sbin/useradd -m -d " +:+ dquote +:+ home +:+ dquote
       +:+ " -r -s " +:+ dquote +:+ shell +:+ dquote
       +:+ " -u " +:+ fmt_d uid +:+ " -g " +:+ fmt_d gid +:+ " "
       +:+ dquote +:+ userName +:+ dquote
       +:+ " -c " +:+ dquote +:+ gecos +:+ dquote).

(** ** Package disk *)

(** CopyFile will copy the file and permissions to the new target.  The
    deferred [src.Close()] runs on every return after the source is open. *)
Definition CopyFile (source dest : string) : IO (option error) :=
  r <- os_Stat source ;;
  match r with
  | inl _ => ret None
  | inr st =>
      guard (call (EvOpen source)) Some
        (o <- call (EvOpenFile dest
                      (Z.lor (Z.lor O_TRUNC O_CREATE) O_WRONLY) (Mode st)) ;;
         match o with
         | Some err => call (EvClose source) ;;; ret (Some err)
         | None =>
             c <- call (EvCopy dest source) ;;
             match c with
             | Some err =>
                 call (EvClose dest) ;;; call (EvClose source) ;;;
                 ret (Some err)
             | None =>
                 call (EvClose dest) ;;;
                 call (EvChtimes dest (ModTime st) (ModTime st)) ;;;
                 call (EvClose source) ;;;
                 ret None
             end
         end)
  end.

(** CreateSparseFile: the size is computed in [int] and converted to
    [int64]; the deferred [f.Close()] runs once the file is open. *)
Definition CreateSparseFile (filename : string) (nMegabytes : Z)
  : IO (option error) :=
  guard (call (EvOpenFile filename
                 (Z.lor (Z.lor O_CREATE O_TRUNC) O_WRONLY) 420)) Some
    (let sz := int64 (int_mul (int_mul nMegabytes 1000) 1000) in
     r <- call (EvFtruncate filename sz) ;;
     call (EvClose filename) ;;;
     ret r).

Definition GetSquashfsArgs (compressionType : CompressionType)
  : error + list string :=
  if String.eqb compressionType CompressionGzip then inr ["-comp"; "gzip"]
  else if String.eqb compressionType CompressionXZ then inr ["-comp"; "xz"]
  else inl ("Unknown compression type: " +:+ compressionType).

Definition CreateSquashfs (path outputFile : string)
  (compressionType : CompressionType) : IO (option error) :=
  let command := [path; outputFile] in
  a <- filepath_Abs path ;;
  match a with
  | inl err => ret (Some err)
  | inr fp =>
      let dirName := filepath.Dir fp in
      s <- os_Stat path ;;
      match s with
      | inl err => ret (Some err)
      | inr st =>
          let command :=
            if IsDir (Mode st) then command ++ ["-keep-as-directory"]
            else command in
          match GetSquashfsArgs compressionType with
          | inl err => ret (Some err)
          | inr execArgs =>
              ExecStdoutArgsDir dirName "mksquashfs" (command ++ execArgs)
          end
      end
  end.

Definition formatExt4 (filename : string) : IO (option error) :=
  guard (ExecStdoutArgs "mkfs" ["-t"; "ext4"; "-F"; filename]) Some
    (ExecStdoutArgs "tune2fs" ["-c0"; "-i0"; filename]).

Definition checkExt4 (filename : string) : IO (option error) :=
  guard (ExecStdoutArgs "e2fsck" ["-y"; filename]) Some
    (ExecStdoutArgs "e2fsck" ["-y"; "-f"; filename]).

(** The command maps, as [init] leaves them. *)
Definition filesystemCommands : gmap string (string -> IO (option error)) :=
  <["ext4" := formatExt4]> ∅.

Definition checkCommands : gmap string (string -> IO (option error)) :=
  <["ext4" := checkExt4]> ∅.

Definition FormatAs (filename filesystem : string) : IO (option error) :=
  match filesystemCommands !! filesystem with
  | None =>
      ret (Some ("Cannot format with unknown filesystem '"
                   +:+ filesystem +:+ "'"))
  | Some command => command filename
  end.

Definition CheckFS (filename filesystem : string) : IO (option error) :=
  match checkCommands !! filesystem with
  | None =>
      ret (Some ("Cannot check with unknown filesystem '"
                   +:+ filesystem +:+ "'"))
  | Some command => command filename
  end.

(** Modelled from the spec: disk.GetMountManager().BindMount lives in a
    file that is not part of the sources at hand ("bind-mount(source,
    target)"); it is one request to the world. *)
Definition BindMount (source target : string) : IO (option error) :=
  call (EvBindMount source target).

(** Modelled from the spec: disk.GetMountManager().Unmount, missing in the
    same way ("unmount(target)"); one request to the world. *)
Definition Unmount (target : string) : IO (option error) :=
  call (EvUnmount target).

(** Modelled from the spec: disk.CreateDeviceNode, missing in the same way
    ("create well-known device nodes (random, urandom) under a root"); one
    request to the world. *)
Definition CreateDeviceNode (root : string) (node : DevNode)
  : IO (option error) :=
  call (EvCreateDeviceNode root node).

End Library.

(** ** Package pkg: the eopkg manager *)

(** EopkgCacheDirectory is where we'll bind mount to provide package
    caching to speed up subsequent image builds. *)
Definition EopkgCacheDirectory : string := "/var/lib/evobuild/packages".

(** EopkgManager is used to apply operations with the eopkg package
    manager for Solus systems. *)
Record EopkgManager := mkEopkgManager {
  root : string;
  cacheTarget : string;
  targetMode : bool;
  dbusActive : bool;
  cacheSource : string
}.

Definition set_root (v : string) (e : EopkgManager) : EopkgManager :=
  mkEopkgManager v (cacheTarget e) (targetMode e) (dbusActive e) (cacheSource e).
Definition set_cacheTarget (v : string) (e : EopkgManager) : EopkgManager :=
  mkEopkgManager (root e) v (targetMode e) (dbusActive e) (cacheSource e).
Definition set_targetMode (v : bool) (e : EopkgManager) : EopkgManager :=
  mkEopkgManager (root e) (cacheTarget e) v (dbusActive e) (cacheSource e).
Definition set_dbusActive (v : bool) (e : EopkgManager) : EopkgManager :=
  mkEopkgManager (root e) (cacheTarget e) (targetMode e) v (cacheSource e).
Definition set_cacheSource (v : string) (e : EopkgManager) : EopkgManager :=
  mkEopkgManager (root e) (cacheTarget e) (targetMode e) (dbusActive e) v.

(** NewEopkgManager: the fields not named start at their zero values. *)
Definition NewEopkgManager : EopkgManager :=
  mkEopkgManager "" "" false false EopkgCacheDirectory.

Definition SetCacheDirectory (source : string) (e : EopkgManager)
  : EopkgManager :=
  set_cacheSource source e.

Section Manager.

Variable w : World.

(** A method with a pointer receiver returns the manager as it leaves it. *)
Definition Method := IO (EopkgManager * option error).

(** Init will check that eopkg is available host side. *)
Definition Init (e : EopkgManager) : Method :=
  r <- exec_LookPath w "eopkg" ;;
  match r with
  | inl err => ret (e, Some err)
  | inr _ => ret (e, None)
  end.

Definition reqDirs : list string :=
  ["run/lock"; "var"; "var/cache/eopkg/packages"].

(** Construct the required directories in the tree. *)
Fixpoint mkdirRequired (rootPath : string) (dirs : list string)
  : IO (option error) :=
  match dirs with
  | [] => ret None
  | dir :: rest =>
      guard (call w (EvMkdirAll (filepath.Join [rootPath; dir]) 493)) Some
        (mkdirRequired rootPath rest)
  end.

(** InitRoot will set up the filesystem root in accordance with eopkg
    needs. *)
Definition InitRoot (rootPath : string) (e : EopkgManager) : Method :=
  let e := set_targetMode true (set_root rootPath e) in
  guard (mkdirRequired rootPath reqDirs) (fun err => (e, Some err))
  (guard (call w (EvMkdirAll (cacheSource e) 493)) (fun err => (e, Some err))
  (guard (call w (EvSymlink "../run/lock" (filepath.Join [rootPath; "var"; "lock"])))
     (fun err => (e, Some err))
  (guard (call w (EvSymlink "../run" (filepath.Join [rootPath; "var"; "run"])))
     (fun err => (e, Some err))
  (let e :=
     set_cacheTarget
       (filepath.Join [rootPath; "var"; "cache"; "eopkg"; "packages"]) e in
   r <- BindMount w (cacheSource e) (cacheTarget e) ;;
   ret (e, r))))).

(** Copy the entries of the base layout one by one. *)
Fixpoint copyFiles (baseDir tgtDir : string) (files : list FileInfo)
  : IO (option error) :=
  match files with
  | [] => ret None
  | file :: rest =>
      let srcPath := filepath.Join [baseDir; Name file] in
      let tgtPath := filepath.Join [tgtDir; Name file] in
      guard (CopyFile w srcPath tgtPath) Some (copyFiles baseDir tgtDir rest)
  end.

Definition copyBaselayout (e : EopkgManager) : IO (option error) :=
  let baseDir := filepath.Join [root e; "usr"; "share"; "baselayout"] in
  let tgtDir := filepath.Join [root e; "etc"] in
  r <- ioutil_ReadDir w baseDir ;;
  match r with
  | inl err => ret (Some err)
  | inr files => copyFiles baseDir tgtDir files
  end.

(** Attempt to start dbus in the root. *)
Definition startDBUS (e : EopkgManager) : Method :=
  if dbusActive e then ret (e, None)
  else
    guard (ChrootExec w (root e) "dbus-uuidgen --ensure")
      (fun err => (e, Some err))
    (guard (ChrootExec w (root e) "dbus-daemon --system")
      (fun err => (e, Some err))
    (ret (set_dbusActive true e, None))).

(** killDBUS will stop dbus again.  The deferred function (close the pid
    file, remove it, clear the flag) is registered once the file is open
    and runs on every return after that. *)
Definition killDBUS (e : EopkgManager) : Method :=
  if negb (dbusActive e) then ret (e, None)
  else
    let fpath := filepath.Join [root e; "var/run/dbus/pid"] in
    o <- call w (EvOpen fpath) ;;
    match o with
    | Some err => ret (e, Some err)
    | None =>
        b <- ioutil_ReadAll w fpath ;;
        r <- match b with
             | inl err => ret (Some err)
             | inr bytes =>
                 let pid := hd "" (Split newline bytes) in
                 ExecStdoutArgs w "kill" ["-9"; pid]
             end ;;
        call w (EvClose fpath) ;;;
        call w (EvRemove fpath) ;;;
        ret (set_dbusActive false e, r)
    end.

Definition configureDbus (e : EopkgManager) : IO (option error) :=
  guard (AddGroup w (root e) "messagebus" 18) Some
    (AddSystemUser w (root e) "messagebus" "D-Bus Message Daemon"
       "/var/run/dbus" "/bin/false" 18 18).

(** FinalizeRoot will configure all of the eopkgs installed in the system,
    and ensure that dbus, etc, works. *)
Definition FinalizeRoot (e : EopkgManager) : Method :=
  guard (Unmount w (cacheTarget e)) (fun err => (e, Some err))
  (guard (copyBaselayout e) (fun err => (e, Some err))
  (guard (ChrootExec w (root e) "ldconfig") (fun err => (e, Some err))
  (guard (configureDbus e) (fun err => (e, Some err))
  (guard (CreateDeviceNode w (root e) DevNodeRandom) (fun err => (e, Some err))
  (guard (CreateDeviceNode w (root e) DevNodeURandom) (fun err => (e, Some err))
  (s <- startDBUS e ;;
   match s with
   | (e, Some err) => ret (e, Some err)
   | (e, None) =>
       c <- ChrootExec w (root e) "eopkg configure-pending" ;;
       match c with
       | Some err =>
           k <- killDBUS e ;;
           ret (fst k, Some err)
       | None =>
           k <- killDBUS e ;;
           match k with
           | (e, Some err) => ret (e, Some err)
           | (e, None) =>
               d <- ChrootExec w (root e) "eopkg delete-cache" ;;
               ret (e, d)
           end
       end
   end)))))).

(** Cleanup will cleanup the rootfs at any given point. *)
Definition Cleanup (e : EopkgManager) : Method := killDBUS e.

Definition eopkgExecRoot (e : EopkgManager) (args : list string) : Method :=
  if negb (targetMode e) then
    r <- ExecStdoutArgs w "eopkg" args ;;
    ret (e, r)
  else
    let endArgs := ["-D"; root e] in
    let args := args ++ endArgs in
    r <- ExecStdoutArgs w "eopkg" args ;;
    ret (e, r).

(** AddRepo will add the new eopkg repo to the target. *)
Definition AddRepo (identifier uri : string) (e : EopkgManager) : Method :=
  eopkgExecRoot e ["add-repo"; identifier; uri].

(** InstallGroups will install the named eopkg components to the target. *)
Definition InstallGroups (ignoreSafety : bool) (groups : list string)
  (e : EopkgManager) : Method :=
  let componentNames :=
    fold_left (fun names comp => names ++ ["-c"; comp]) groups [] in
  let cmd := ["install"; "-y"] in
  let cmd := if targetMode e then cmd ++ ["--ignore-comar"] else cmd in
  let cmd := cmd ++ componentNames in
  let cmd := if ignoreSafety then cmd ++ ["--ignore-safety"] else cmd in
  eopkgExecRoot e cmd.

(** InstallPackages will install the named eopkgs to the target. *)
Definition InstallPackages (ignoreSafety : bool) (packages : list string)
  (e : EopkgManager) : Method :=
  let cmd := ["install"; "-y"] in
  let cmd := if targetMode e then cmd ++ ["--ignore-comar"] else cmd in
  let cmd := cmd ++ packages in
  let cmd := if ignoreSafety then cmd ++ ["--ignore-safety"] else cmd in
  eopkgExecRoot e cmd.

End Manager.

(** ** Vocabulary of the properties *)

(** A computation only ever adds to the history. *)
Definition extends {A} (m : IO A) : Prop :=
  forall t, exists evs, snd (m t) = t ++ evs.

(** The size the last successful truncation gave the file [name]. *)
Definition size_step (name : string) (cur : option Z)
  (en : Event * option error) : option Z :=
  match en with
  | (EvFtruncate p sz, None) => if String.eqb p name then Some sz else cur
  | _ => cur
  end.

Definition truncated_to (name : string) (t : Trace) : option Z :=
  fold_left (size_step name) t None.

(** The launch of the message bus inside [rootPath]: a run of chroot with
    the daemon's command line. *)
Definition is_launch (rootPath : string) (en : Event * option error) : bool :=
  match fst en with
  | EvRun c =>
      bool_decide
        (tl (Args c) = [rootPath; "/bin/sh"; "-c"; "dbus-daemon --system"])
  | _ => false
  end.

Definition launches (rootPath : string) (evs : list (Event * option error))
  : nat :=
  length (filter (fun en => is_launch rootPath en = true) evs).

(** Where the message bus records its process id. *)
Definition pidFile (e : EopkgManager) : string :=
  filepath.Join [root e; "var/run/dbus/pid"].

(** Steps 1 to 6 of FinalizeRoot: everything before the pending
    configuration is run. *)
Definition finalizeSteps1to6 (w : World) (e : EopkgManager) : Method :=
  guard (Unmount w (cacheTarget e)) (fun err => (e, Some err))
  (guard (copyBaselayout w e) (fun err => (e, Some err))
  (guard (ChrootExec w (root e) "ldconfig") (fun err => (e, Some err))
  (guard (configureDbus w e) (fun err => (e, Some err))
  (guard (CreateDeviceNode w (root e) DevNodeRandom) (fun err => (e, Some err))
  (guard (CreateDeviceNode w (root e) DevNodeURandom) (fun err => (e, Some err))
  (startDBUS w e)))))).

(** ** Sample worlds *)

Definition treeInfo : FileInfo := mkFileInfo "tree" (Z.lor ModeDir 493) 1700000000.

Definition passwdInfo : FileInfo := mkFileInfo "passwd" 420 1700000000.

(** A world whose failures are given and whose data is fixed: every path is
    a directory, the base layout holds one file, the pid file holds 4242,
    programs are found in /usr/bin and the process runs in /home/build. *)
Definition world_with (failing : Trace -> Event -> option error) : World :=
  mkWorld failing
    (fun _ _ => treeInfo)
    (fun _ _ => [passwdInfo])
    (fun _ _ => "4242" +:+ String newline "dbus")
    (fun _ file => "/usr/bin/" +:+ file)
    (fun _ => "/home/build").

Definition world_ok : World := world_with (fun _ _ => None).

Definition world_no_source : World :=
  world_with (fun _ ev =>
    match ev with
    | EvStat _ => Some "stat: no such file or directory"
    | _ => None
    end).

Definition world_not_mounted : World :=
  world_with (fun _ ev =>
    match ev with
    | EvUnmount _ => Some "umount: not mounted"
    | _ => None
    end).

Definition world_no_pidfile : World :=
  world_with (fun _ ev =>
    match ev with
    | EvOpen p =>
        if String.eqb p "/srv/root/var/run/dbus/pid"
        then Some "open: no such file or directory" else None
    | _ => None
    end).

Definition world_unreadable_pidfile : World :=
  world_with (fun _ ev =>
    match ev with
    | EvReadAll _ => Some "read: input/output error"
    | _ => None
    end).

(** Pending configuration fails inside the root; the pid file is there. *)
Definition world_hook_fails : World :=
  world_with (fun _ ev =>
    match ev with
    | EvRun c =>
        if existsb (String.eqb "eopkg configure-pending") (Args c)
        then Some "exit status 1" else None
    | _ => None
    end).

(** Pending configuration fails and the bus never wrote its pid file. *)
Definition world_hook_fails_no_pidfile : World :=
  world_with (fun _ ev =>
    match ev with
    | EvRun c =>
        if existsb (String.eqb "eopkg configure-pending") (Args c)
        then Some "exit status 1" else None
    | EvOpen p =>
        if String.eqb p "/srv/root/var/run/dbus/pid"
        then Some "open: no such file or directory" else None
    | _ => None
    end).

Definition world_no_bind_mount : World :=
  world_with (fun _ ev =>
    match ev with
    | EvBindMount _ _ => Some "mount: permission denied"
    | _ => None
    end).

Definition manager_at (rootPath : string) (active : bool) : EopkgManager :=
  mkEopkgManager rootPath
    (filepath.Join [rootPath; "var"; "cache"; "eopkg"; "packages"])
    true active EopkgCacheDirectory.

(** ** Vocabulary of the further properties *)

(** A run that stops at its first failure: every request but the last one
    succeeded, and the result is the outcome of the last one. *)
Definition fail_fast (evs : list (Event * option error)) (r : option error)
  : Prop :=
  exists pre ev, evs = pre ++ [(ev, r)] /\ Forall (fun en => snd en = None) pre.

(** A computation all of whose runs stop at their first failure; [res]
    reads the error off the result. *)
Definition FailFast {A} (res : A -> option error) (m : IO A) : Prop :=
  forall t, exists evs, snd (m t) = t ++ evs /\ fail_fast evs (res (fst (m t))).

(** Two managers that differ at most in whether the bus is marked active. *)
Definition same_settings (e e1 : EopkgManager) : Prop :=
  root e1 = root e /\ cacheTarget e1 = cacheTarget e /\
  targetMode e1 = targetMode e /\ cacheSource e1 = cacheSource e.

(** The requests of InitRoot, in the order it makes them. *)
Definition initRootPlan (rootPath cacheSrc : string) : list Event :=
  [EvMkdirAll (filepath.Join [rootPath; "run/lock"]) 493;
   EvMkdirAll (filepath.Join [rootPath; "var"]) 493;
   EvMkdirAll (filepath.Join [rootPath; "var/cache/eopkg/packages"]) 493;
   EvMkdirAll cacheSrc 493;
   EvSymlink "../run/lock" (filepath.Join [rootPath; "var"; "lock"]);
   EvSymlink "../run" (filepath.Join [rootPath; "var"; "run"]);
   EvBindMount cacheSrc
     (filepath.Join [rootPath; "var"; "cache"; "eopkg"; "packages"])].

(** The requests that can make CopyFile fail. *)
Definition copy_critical (source dest : string) (ev : Event) : Prop :=
  ev = EvOpen source \/
  (exists perm, ev = EvOpenFile dest 577 perm) \/
  ev = EvCopy dest source.

(** A string without a line break. *)
Fixpoint one_line (s : string) : bool :=
  match s with
  | EmptyString => true
  | String c rest => negb (Ascii.eqb c newline) && one_line rest
  end.

(** Further sample worlds. *)
Definition world_no_symlinks : World :=
  world_with (fun _ ev =>
    match ev with
    | EvSymlink _ _ => Some "symlink: file exists"
    | _ => None
    end).

Definition world_no_dbus_daemon : World :=
  world_with (fun _ ev =>
    match ev with
    | EvRun c =>
        if existsb (String.eqb "dbus-daemon --system") (Args c)
        then Some "exit status 127" else None
    | _ => None
    end).

Definition world_copy_fails : World :=
  world_with (fun _ ev =>
    match ev with
    | EvCopy _ _ => Some "write: no space left on device"
    | _ => None
    end).

Definition world_careless : World :=
  world_with (fun _ ev =>
    match ev with
    | EvChtimes _ _ _ => Some "chtimes: operation not permitted"
    | EvClose _ => Some "close: input/output error"
    | _ => None
    end).

Definition world_no_mkfs : World :=
  world_with (fun _ ev =>
    match ev with
    | EvLookPath file =>
        if String.eqb file "mkfs" then Some "executable file not found in $PATH"
        else None
    | _ => None
    end).

Definition world_truncate_fails : World :=
  world_with (fun _ ev =>
    match ev with
    | EvFtruncate _ _ => Some "ftruncate: file too large"
    | _ => None
    end).

Example Clean_ex1 : filepath.Clean "abc/def/../../../ghi/jkl/../../../mno" = "../../mno".
Proof. reflexivity. Qed.
Example Clean_ex2 : filepath.Clean "/abc/def/../../.." = "/".
Proof. reflexivity. Qed.
Example Clean_ex3 : filepath.Clean "//abc//" = "/abc".
Proof. reflexivity. Qed.
Example Clean_ex4 : filepath.Clean "abc/./../def" = "def".
Proof. reflexivity. Qed.
Example Clean_ex5 : filepath.Clean "abc/def/../.." = ".".
Proof. reflexivity. Qed.
Example Clean_ex6 : filepath.Clean "/../abc" = "/abc".
Proof. reflexivity. Qed.
Example Clean_ex7 : filepath.Clean "../../abc/" = "../../abc".
Proof. reflexivity. Qed.
Example Dir_ex1 : filepath.Dir "/foo/bar/baz.js" = "/foo/bar".
Proof. reflexivity. Qed.
Example Dir_ex2 : filepath.Dir "dev.txt" = ".".
Proof. reflexivity. Qed.
Example Dir_ex3 : filepath.Dir "/usr" = "/".
Proof. reflexivity. Qed.
Example Dir_ex4 : filepath.Dir "foo/" = "foo".
Proof. reflexivity. Qed.
Example Join_ex1 : filepath.Join ["a"; "b/c"] = "a/b/c".
Proof. reflexivity. Qed.
Example Join_ex2 : filepath.Join ["a/b"; "../../../xyz"] = "../xyz".
Proof. reflexivity. Qed.
Example Join_ex3 : filepath.Join [""; ""] = "".
Proof. reflexivity. Qed.
Example Join_ex4 : filepath.Join ["/root"; "var/run/dbus/pid"] = "/root/var/run/dbus/pid".
Proof. reflexivity. Qed.

(** ** Computations only add to the history *)

Lemma extends_ret {A} (a : A) : extends (ret a).
Proof. intros t. exists []. cbn. now rewrite app_nil_r. Qed.

Lemma extends_bind {A B} (m : IO A) (k : A -> IO B) :
  extends m -> (forall a, extends (k a)) -> extends (bind m k).
Proof.
  intros Hm Hk t. unfold bind.
  destruct (Hm t) as [evs1 H1]. destruct (m t) as [a t1]. cbn in H1. subst t1.
  destruct (Hk a (t ++ evs1)) as [evs2 H2].
  exists (evs1 ++ evs2). now rewrite H2, app_assoc.
Qed.

Lemma extends_call w ev : extends (call w ev).
Proof. intros t. now exists [(ev, fails w t ev)]. Qed.

Lemma extends_query {A} w ev (data : Trace -> A) : extends (query w ev data).
Proof. intros t. now exists [(ev, fails w t ev)]. Qed.

Lemma extends_guard {A} (m : IO (option error)) (fail : error -> A) (k : IO A) :
  extends m -> extends k -> extends (guard m fail k).
Proof.
  intros Hm Hk. apply extends_bind; [exact Hm|].
  intros [err|]; [apply extends_ret | exact Hk].
Qed.

Create HintDb io.
#[local] Hint Resolve extends_ret extends_call extends_query : io.

Ltac ext_step :=
  first
    [ apply extends_ret
    | apply extends_call
    | apply extends_query
    | apply extends_guard
    | apply extends_bind; [| intros ? ]
    | match goal with |- extends (match ?x with _ => _ end) => destruct x end
    | match goal with |- extends (if ?x then _ else _) => destruct x end ].

Ltac ext := repeat ext_step; eauto with io.

Lemma extends_ExecStdoutArgs w command args :
  extends (ExecStdoutArgs w command args).
Proof. unfold ExecStdoutArgs, execHelper, exec_LookPath, Run. ext. Qed.

Lemma extends_ExecStdoutArgsDir w dir command args :
  extends (ExecStdoutArgsDir w dir command args).
Proof. unfold ExecStdoutArgsDir, execHelper, exec_LookPath, Run. ext. Qed.

Lemma extends_ChrootExec w dir command : extends (ChrootExec w dir command).
Proof. apply extends_ExecStdoutArgs. Qed.

#[local] Hint Resolve extends_ExecStdoutArgs extends_ExecStdoutArgsDir
  extends_ChrootExec : io.

Lemma extends_CopyFile w source dest : extends (CopyFile w source dest).
Proof. unfold CopyFile, os_Stat. ext. Qed.

#[local] Hint Resolve extends_CopyFile : io.

Lemma extends_copyFiles w baseDir tgtDir files :
  extends (copyFiles w baseDir tgtDir files).
Proof.
  induction files as [|file rest IH]; cbn [copyFiles]; [apply extends_ret|].
  apply extends_guard; auto with io.
Qed.

Lemma extends_copyBaselayout w e : extends (copyBaselayout w e).
Proof.
  unfold copyBaselayout, ioutil_ReadDir.
  apply extends_bind; [apply extends_query|].
  intros [err|files]; [apply extends_ret | apply extends_copyFiles].
Qed.

Lemma extends_configureDbus w e : extends (configureDbus w e).
Proof. unfold configureDbus, AddGroup, AddSystemUser. ext. Qed.

Lemma extends_startDBUS w e : extends (startDBUS w e).
Proof. unfold startDBUS. ext. Qed.

Lemma extends_killDBUS w e : extends (killDBUS w e).
Proof. unfold killDBUS, ioutil_ReadAll. ext. Qed.

#[local] Hint Resolve extends_copyBaselayout extends_configureDbus
  extends_startDBUS extends_killDBUS : io.

Lemma extends_FinalizeRoot w e : extends (FinalizeRoot w e).
Proof.
  unfold FinalizeRoot, Unmount, CreateDeviceNode.
  repeat (apply extends_guard; auto with io).
  apply extends_bind; [auto with io|].
  intros [e1 [err|]]; [apply extends_ret|].
  apply extends_bind; [auto with io|].
  intros [err|].
  - apply extends_bind; [auto with io | intros; apply extends_ret].
  - apply extends_bind; [auto with io|].
    intros [e2 [err|]]; [apply extends_ret|].
    apply extends_bind; [auto with io | intros; apply extends_ret].
Qed.

(** ** Image files *)

Lemma int_wrap_in_range z : MinInt <= z <= MaxInt -> int_wrap z = z.
Proof.
  unfold MinInt, MaxInt, int_wrap. intros H.
  rewrite Z.mod_small; lia.
Qed.

Lemma sparse_size_exact n :
  0 <= n -> n * 1000000 <= MaxInt ->
  int64 (int_mul (int_mul n 1000) 1000) = n * 1000000.
Proof.
  unfold int64, int_mul, MaxInt. intros H0 H1.
  rewrite (int_wrap_in_range (n * 1000)) by (unfold MinInt, MaxInt; lia).
  replace (n * 1000 * 1000) with (n * 1000000) by lia.
  rewrite (int_wrap_in_range (n * 1000000)) by (unfold MinInt, MaxInt; lia).
  apply int_wrap_in_range. unfold MinInt, MaxInt. lia.
Qed.

Lemma truncated_to_app name t evs :
  truncated_to name (t ++ evs) = fold_left (size_step name) evs (truncated_to name t).
Proof. unfold truncated_to. apply fold_left_app. Qed.

(** C8 (as amended): for every filename and every sizeMB with
    0 <= sizeMB and sizeMB * 1,000,000 within the range of int, a successful
    CreateSparseFile(filename, sizeMB) opens the file, truncates it to exactly
    sizeMB * 1,000,000 bytes (decimal megabytes) and closes it, so that the
    size the file is left with is sizeMB * 1,000,000. *)
Theorem CreateSparseFile_decimal_megabytes w filename n t t' :
  0 <= n -> n * 1000000 <= MaxInt ->
  CreateSparseFile w filename n t = (None, t') ->
  truncated_to filename t' = Some (n * 1000000) /\
  exists o,
    t' = t ++ [(EvOpenFile filename 577 420, None);
               (EvFtruncate filename (n * 1000000), None);
               (EvClose filename, o)].
Proof.
  intros H0 H1. unfold CreateSparseFile, guard, bind, ret, call.
  rewrite (sparse_size_exact n H0 H1).
  change (Z.lor (Z.lor O_CREATE O_TRUNC) O_WRONLY) with 577.
  destruct (fails w t (EvOpenFile filename 577 420)) as [err|] eqn:Hopen;
    [discriminate|].
  intros H. injection H as Hr Ht. rewrite Hr in Ht. subst t'.
  split.
  - rewrite <- app_assoc, truncated_to_app. cbn.
    now rewrite String.eqb_refl.
  - eexists. rewrite <- !app_assoc. reflexivity.
Qed.

(** The instance of the spec: ten megabytes are 10,000,000 bytes. *)
Lemma CreateSparseFile_ten_megabytes :
  truncated_to "/tmp/disk.img"
    (snd (CreateSparseFile world_ok "/tmp/disk.img" 10 [])) = Some 10000000.
Proof.
  refine (proj1 (CreateSparseFile_decimal_megabytes world_ok "/tmp/disk.img" 10 []
                   _ _ _ _)).
  - lia.
  - unfold MaxInt. lia.
  - reflexivity.
Defined.

(** C8 (as stated) fails: 18,446,744,073,710 megabytes is a non-negative int,
    the product wraps around, the call succeeds and the file is left with
    448,384 bytes. *)
Lemma CreateSparseFile_wraps_around :
  0 <= 18446744073710 <= MaxInt /\
  CreateSparseFile world_ok "/tmp/disk.img" 18446744073710 [] =
    (None,
     [(EvOpenFile "/tmp/disk.img" 577 420, None);
      (EvFtruncate "/tmp/disk.img" 448384, None);
      (EvClose "/tmp/disk.img", None)]) /\
  truncated_to "/tmp/disk.img"
    (snd (CreateSparseFile world_ok "/tmp/disk.img" 18446744073710 []))
    = Some 448384 /\
  18446744073710 * 1000000 <> 448384.
Proof.
  split; [unfold MaxInt; lia|].
  split; [vm_compute; reflexivity|].
  split; [vm_compute; reflexivity | lia].
Qed.

(** C6: when stat-ing the source fails, CopyFile returns nil and the stat
    is the only thing it asked of the world: nothing is opened, created or
    written. *)
Theorem CopyFile_stat_failure_is_success w source dest t err :
  fails w t (EvStat source) = Some err ->
  CopyFile w source dest t = (None, t ++ [(EvStat source, Some err)]).
Proof.
  intros H. unfold CopyFile, os_Stat, query, bind, ret.
  now rewrite H.
Qed.

Lemma CopyFile_missing_source :
  CopyFile world_no_source "/srv/root/usr/share/baselayout/passwd"
    "/srv/root/etc/passwd" [] =
  (None,
   [(EvStat "/srv/root/usr/share/baselayout/passwd",
     Some "stat: no such file or directory")]).
Proof.
  apply (CopyFile_stat_failure_is_success world_no_source
           "/srv/root/usr/share/baselayout/passwd" "/srv/root/etc/passwd" []
           "stat: no such file or directory").
  reflexivity.
Defined.

(** ** The filesystem registry *)

(** C7: for every path and every filesystem name other than "ext4", FormatAs
    and CheckFS both fail with an error that names the requested filesystem,
    and ask nothing of the world (the history is unchanged). *)
Theorem unknown_filesystem_is_rejected w filename filesystem t :
  filesystem <> "ext4" ->
  FormatAs w filename filesystem t =
    (Some ("Cannot format with unknown filesystem '" +:+ filesystem +:+ "'"), t)
  /\
  CheckFS w filename filesystem t =
    (Some ("Cannot check with unknown filesystem '" +:+ filesystem +:+ "'"), t).
Proof.
  intros Hne. unfold FormatAs, CheckFS, filesystemCommands, checkCommands.
  rewrite !lookup_insert_ne by congruence.
  now rewrite !lookup_empty.
Qed.

Lemma unknown_fs_is_rejected :
  FormatAs world_ok "/tmp/rootfs.img" "unknown-fs" [] =
    (Some "Cannot format with unknown filesystem 'unknown-fs'", [])
  /\
  CheckFS world_ok "/tmp/rootfs.img" "unknown-fs" [] =
    (Some "Cannot check with unknown filesystem 'unknown-fs'", []).
Proof.
  apply (unknown_filesystem_is_rejected world_ok "/tmp/rootfs.img" "unknown-fs" []).
  discriminate.
Defined.

(** ** Compressed images *)

Lemma GetSquashfsArgs_unknown ct :
  ct <> CompressionGzip -> ct <> CompressionXZ ->
  GetSquashfsArgs ct = inl ("Unknown compression type: " +:+ ct).
Proof.
  intros Hg Hx. unfold GetSquashfsArgs.
  apply String.eqb_neq in Hg. apply String.eqb_neq in Hx.
  now rewrite Hg, Hx.
Qed.

(** C4: for every sourcePath and outputFile, CreateSquashfs with a
    compression kind other than gzip and xz returns an error, and all it has
    asked of the world by then is the working directory and a stat of the
    source: no program is looked up and no process is spawned. *)
Theorem CreateSquashfs_rejects_unknown_compression w path outputFile ct t :
  ct <> CompressionGzip -> ct <> CompressionXZ ->
  exists err evs,
    CreateSquashfs w path outputFile ct t = (Some err, t ++ evs) /\
    existsb is_spawn evs = false /\
    Forall (fun en => fst en = EvGetwd \/ fst en = EvStat path) evs.
Proof.
  intros Hg Hx.
  unfold CreateSquashfs, filepath_Abs, os_Getwd, os_Stat, query, bind, ret.
  rewrite (GetSquashfsArgs_unknown ct Hg Hx).
  destruct (filepath.IsAbs path).
  - destruct (fails w t (EvStat path)) as [err|];
      eexists; eexists; (split; [reflexivity|]);
      (split; [reflexivity|]); repeat (apply Forall_cons || apply Forall_nil); cbn; auto.
  - destruct (fails w t EvGetwd) as [err|].
    + eexists; eexists; (split; [reflexivity|]);
        (split; [reflexivity|]); repeat (apply Forall_cons || apply Forall_nil); cbn; auto.
    + destruct (fails w (t ++ [(EvGetwd, None)]) (EvStat path)) as [err|];
        eexists; eexists; (split; [rewrite <- app_assoc; reflexivity|]);
        (split; [reflexivity|]); repeat (apply Forall_cons || apply Forall_nil); cbn; auto.
Qed.

Lemma CreateSquashfs_rejects_lz4 :
  exists err evs,
    CreateSquashfs world_ok "tree" "/out/root.squashfs" "lz4" [] = (Some err, [] ++ evs) /\
    existsb is_spawn evs = false /\
    Forall (fun en => fst en = EvGetwd \/ fst en = EvStat "tree") evs.
Proof.
  apply (CreateSquashfs_rejects_unknown_compression world_ok "tree"
           "/out/root.squashfs" "lz4" []); discriminate.
Defined.

(** C2 (as amended): whenever CreateSquashfs runs the compression tool, the
    tool's working directory is the parent directory of the absolute path of
    sourcePath, the tree to compress. *)
Theorem CreateSquashfs_runs_in_parent_of_source w path outputFile ct t :
  exists evs,
    snd (CreateSquashfs w path outputFile ct t) = t ++ evs /\
    forall c o, In (EvRun c, o) evs ->
      exists fp,
        fst (filepath_Abs w path t) = inr fp /\ Dir c = filepath.Dir fp.
Proof.
  unfold CreateSquashfs, bind.
  destruct (filepath_Abs w path t) as [[err|fp] t1] eqn:Habs.
  - assert (Hext : exists evs, t1 = t ++ evs).
    { assert (E : extends (filepath_Abs w path))
        by (unfold filepath_Abs, os_Getwd; ext).
      destruct (E t) as [evs He]. rewrite Habs in He. now exists evs. }
    destruct Hext as [evs ->]. exists evs. split; [reflexivity|].
    intros c o Hin. exfalso.
    unfold filepath_Abs, os_Getwd, query, bind, ret in Habs.
    destruct (filepath.IsAbs path); [discriminate|].
    destruct (fails w t EvGetwd); [|discriminate].
    injection Habs as _ Ht. apply app_inv_head in Ht. subst evs.
    destruct Hin as [Hin|[]]. discriminate.
  - assert (Hpre : exists evs0, t1 = t ++ evs0 /\
                     forall c o, ~ In (EvRun c, o) evs0).
    { unfold filepath_Abs, os_Getwd, query, bind, ret in Habs.
      destruct (filepath.IsAbs path).
      - injection Habs as _ Ht. exists []. rewrite app_nil_r. split; [easy|].
        intros c o [].
      - destruct (fails w t EvGetwd); [discriminate|].
        injection Habs as _ Ht. eexists. split; [symmetry; exact Ht|].
        intros c o [Hin|[]]. discriminate. }
    destruct Hpre as [evs0 [-> Hno]].
    unfold os_Stat, query, ret, ExecStdoutArgsDir, execHelper, exec_LookPath,
      query, Run, call, bind, ret. cbn [ContainsSlash negb orb Ascii.eqb].
    cbn.
    destruct (fails w (t ++ evs0) (EvStat path)) as [err|].
    + eexists. split; [rewrite <- app_assoc; reflexivity|].
      intros c o Hin. apply in_app_or in Hin. destruct Hin as [Hin|[Hin|[]]].
      * now apply Hno in Hin.
      * discriminate.
    + destruct (GetSquashfsArgs ct) as [err|execArgs].
      * eexists. split; [rewrite <- app_assoc; reflexivity|].
        intros c o Hin. apply in_app_or in Hin. destruct Hin as [Hin|[Hin|[]]].
        { now apply Hno in Hin. }
        { discriminate. }
      * cbn.
        destruct (fails w ((t ++ evs0) ++ [(EvStat path, None)])
                    (EvLookPath "mksquashfs")) as [err|].
        { eexists. split; [rewrite <- !app_assoc; reflexivity|].
          intros c o Hin. apply in_app_or in Hin.
          destruct Hin as [Hin|[Hin|[Hin|[]]]];
            [now apply Hno in Hin | discriminate | discriminate]. }
        { eexists. split; [rewrite <- !app_assoc; reflexivity|].
          intros c o Hin. apply in_app_or in Hin.
          destruct Hin as [Hin|[Hin|[Hin|[Hin|[]]]]];
            [now apply Hno in Hin | discriminate | discriminate |].
          injection Hin as Hc _. subst c. exists fp. now split. }
Qed.

Lemma CreateSquashfs_xz_runs_in_srv :
  exists c,
    In (EvRun c, None)
       (snd (CreateSquashfs world_ok "/srv/tree" "/out/root.squashfs" "xz" []))
    /\ Dir c = "/srv".
Proof.
  destruct (CreateSquashfs_runs_in_parent_of_source world_ok "/srv/tree"
              "/out/root.squashfs" "xz" []) as [evs [Hevs Hdir]].
  cbn [app] in Hevs.
  eexists. split.
  - vm_compute. right. right. left. reflexivity.
  - destruct (Hdir (mkCmd "/usr/bin/mksquashfs"
                      ["/usr/bin/mksquashfs"; "/srv/tree"; "/out/root.squashfs";
                       "-keep-as-directory"; "-comp"; "xz"] "/srv") None)
      as [fp [Hfp Hd]].
    + rewrite <- Hevs. vm_compute. right. right. left. reflexivity.
    + reflexivity.
Defined.

(** C2 (as stated) fails: compressing /srv/tree into /out/root.squashfs runs
    mksquashfs in /srv, the parent of the source, while the parent of the
    output file's absolute path is /out. *)
Lemma CreateSquashfs_not_in_parent_of_output :
  snd (CreateSquashfs world_ok "/srv/tree" "/out/root.squashfs" "xz" []) =
    [(EvStat "/srv/tree", None);
     (EvLookPath "mksquashfs", None);
     (EvRun (mkCmd "/usr/bin/mksquashfs"
               ["/usr/bin/mksquashfs"; "/srv/tree"; "/out/root.squashfs";
                "-keep-as-directory"; "-comp"; "xz"] "/srv"), None)] /\
  fst (filepath_Abs world_ok "/out/root.squashfs" []) = inr "/out/root.squashfs" /\
  filepath.Dir "/out/root.squashfs" = "/out" /\
  "/srv" <> "/out".
Proof.
  split; [vm_compute; reflexivity|].
  split; [vm_compute; reflexivity|].
  split; [vm_compute; reflexivity | discriminate].
Qed.

(** ** The message bus supervisor *)

Lemma ChrootExec_success w dir command t t' :
  ChrootExec w dir command t = (None, t') ->
  t' = t ++ [(EvLookPath "chroot", None);
             (EvRun (mkCmd (lookpath w t "chroot")
                       [lookpath w t "chroot"; dir; "/bin/sh"; "-c"; command] ""),
              None)].
Proof.
  unfold ChrootExec, ExecStdoutArgs, execHelper, exec_LookPath, query, Run,
    call, bind, ret. cbn.
  destruct (fails w t (EvLookPath "chroot")) as [err|]; [discriminate|].
  intros H. injection H as Hr Ht. rewrite Hr in Ht.
  rewrite <- Ht, <- app_assoc. reflexivity.
Qed.

Lemma guard_success {A} (m : IO (option error)) (fail : error -> A * option error)
  (k : IO (A * option error)) t a t' :
  (forall err, snd (fail err) = Some err) ->
  guard m fail k t = ((a, None), t') ->
  exists t0, m t = (None, t0) /\ k t0 = ((a, None), t').
Proof.
  intros Hfail. unfold guard, bind, ret.
  destruct (m t) as [[err|] t0].
  - intros H. injection H as H _. specialize (Hfail err).
    rewrite H in Hfail. discriminate.
  - intros H. now exists t0.
Qed.

Lemma startDBUS_success w e t e1 t1 :
  startDBUS w e t = ((e1, None), t1) ->
  dbusActive e1 = true /\ root e1 = root e /\
  (dbusActive e = true -> e1 = e /\ t1 = t) /\
  (dbusActive e = false ->
   t1 = t ++ [(EvLookPath "chroot", None);
              (EvRun (mkCmd (lookpath w t "chroot")
                        [lookpath w t "chroot"; root e; "/bin/sh"; "-c";
                         "dbus-uuidgen --ensure"] ""), None)]
          ++ [(EvLookPath "chroot", None);
              (EvRun (mkCmd (lookpath w (t ++ [(EvLookPath "chroot", None);
              (EvRun (mkCmd (lookpath w t "chroot")
                        [lookpath w t "chroot"; root e; "/bin/sh"; "-c";
                         "dbus-uuidgen --ensure"] ""), None)]) "chroot")
                        [lookpath w (t ++ [(EvLookPath "chroot", None);
              (EvRun (mkCmd (lookpath w t "chroot")
                        [lookpath w t "chroot"; root e; "/bin/sh"; "-c";
                         "dbus-uuidgen --ensure"] ""), None)]) "chroot";
                         root e; "/bin/sh"; "-c";
                         "dbus-daemon --system"] ""), None)]).
Proof.
  unfold startDBUS. destruct (dbusActive e) eqn:Hact.
  - unfold ret. intros H. injection H as He Ht. subst e1 t1.
    repeat split; auto; discriminate.
  - intros H.
    apply guard_success in H; [|reflexivity]. destruct H as [ta [H1 H]].
    apply guard_success in H; [|reflexivity]. destruct H as [tb [H2 H]].
    unfold ret in H. injection H as He Ht. subst e1 t1.
    apply ChrootExec_success in H1. subst ta.
    apply ChrootExec_success in H2. subst tb.
    split; [reflexivity|]. split; [reflexivity|].
    split; [discriminate|].
    intros _. now rewrite <- app_assoc.
Qed.

(** C9: start() on a supervisor that is already active returns success at
    once and asks nothing of the world; hence of two successive successful
    start() calls the second does nothing, and the two calls together launch
    the service exactly once when the supervisor was not active before them
    (and not at all when it already was: its one launch is the earlier one
    that made it active). *)
Theorem startDBUS_idempotent w e t :
  (dbusActive e = true -> startDBUS w e t = ((e, None), t)) /\
  (forall e1 t1 e2 t2,
     startDBUS w e t = ((e1, None), t1) ->
     startDBUS w e1 t1 = ((e2, None), t2) ->
     e2 = e1 /\ t2 = t1 /\
     exists evs,
       t2 = t ++ evs /\
       launches (root e) evs = (if dbusActive e then 0 else 1)%nat).
Proof.
  split.
  - intros Hact. unfold startDBUS. now rewrite Hact.
  - intros e1 t1 e2 t2 H1 H2.
    apply startDBUS_success in H1.
    destruct H1 as [Hact1 [Hroot [Hkept Hfresh]]].
    apply startDBUS_success in H2. destruct H2 as [_ [_ [Hsame _]]].
    destruct (Hsame Hact1) as [-> ->].
    split; [reflexivity|]. split; [reflexivity|].
    destruct (dbusActive e) eqn:Hact.
    + destruct (Hkept eq_refl) as [_ ->]. exists [].
      split; [now rewrite app_nil_r | reflexivity].
    + specialize (Hfresh eq_refl). eexists. split; [exact Hfresh|].
      unfold launches. cbn [app].
      rewrite filter_cons_False by (cbn; discriminate).
      rewrite filter_cons_False
        by (unfold is_launch; cbn; rewrite bool_decide_eq_true; congruence).
      rewrite filter_cons_False by (cbn; discriminate).
      rewrite filter_cons_True
        by (unfold is_launch; cbn; now rewrite bool_decide_eq_true).
      reflexivity.
Qed.

Lemma startDBUS_twice_launches_once :
  exists evs,
    snd (startDBUS world_ok
           (fst (fst (startDBUS world_ok (manager_at "/srv/root" false) [])))
           (snd (startDBUS world_ok (manager_at "/srv/root" false) [])))
      = [] ++ evs
    /\ launches "/srv/root" evs = 1%nat.
Proof.
  edestruct (proj2 (startDBUS_idempotent world_ok (manager_at "/srv/root" false) []))
    as [_ [Ht Hone]].
  - reflexivity.
  - reflexivity.
  - destruct Hone as [evs [Hevs Hl]].
    exists evs. split; [exact Hevs | exact Hl].
Defined.

(** ** Finalizing a root *)

Lemma guard_call_first {A} w ev (fail : error -> A) (k : IO A) t :
  extends k ->
  exists later,
    snd (guard (call w ev) fail k t) = t ++ (ev, fails w t ev) :: later /\
    (later <> [] -> fails w t ev = None).
Proof.
  intros Hk. unfold guard, call, bind, ret.
  destruct (fails w t ev) as [err|].
  - exists []. split; [reflexivity|]. intros H. now contradiction H.
  - destruct (Hk (t ++ [(ev, None)])) as [later Hl].
    exists later. split; [|reflexivity].
    rewrite Hl, <- app_assoc. reflexivity.
Qed.

(** C5: in every FinalizeRoot run the first thing asked of the world is the
    unmount of the cache bind mount; when it fails, FinalizeRoot returns that
    error at once, with the manager unchanged and nothing else done, so
    whatever else a run does (the baselayout copy and all later steps)
    comes after a successful unmount. *)
Theorem FinalizeRoot_unmount_gate w e t :
  (forall err,
     fails w t (EvUnmount (cacheTarget e)) = Some err ->
     FinalizeRoot w e t =
       ((e, Some err), t ++ [(EvUnmount (cacheTarget e), Some err)])) /\
  (exists later,
     snd (FinalizeRoot w e t) =
       t ++ (EvUnmount (cacheTarget e), fails w t (EvUnmount (cacheTarget e)))
         :: later /\
     (later <> [] -> fails w t (EvUnmount (cacheTarget e)) = None)).
Proof.
  split.
  - intros err H. unfold FinalizeRoot, Unmount.
    unfold guard at 1. unfold bind at 1. unfold call at 1.
    now rewrite H.
  - unfold FinalizeRoot, Unmount. apply guard_call_first.
    unfold CreateDeviceNode.
    repeat (apply extends_guard; auto with io).
    apply extends_bind; [auto with io|].
    intros [e1 [err|]]; [apply extends_ret|].
    apply extends_bind; [auto with io|].
    intros [err|].
    + apply extends_bind; [auto with io | intros; apply extends_ret].
    + apply extends_bind; [auto with io|].
      intros [e2 [err|]]; [apply extends_ret|].
      apply extends_bind; [auto with io | intros; apply extends_ret].
Qed.

Lemma FinalizeRoot_nothing_mounted :
  FinalizeRoot world_not_mounted (manager_at "/srv/root" false) [] =
    ((manager_at "/srv/root" false, Some "umount: not mounted"),
     [(EvUnmount "/srv/root/var/cache/eopkg/packages",
       Some "umount: not mounted")]).
Proof.
  apply (proj1 (FinalizeRoot_unmount_gate world_not_mounted
                  (manager_at "/srv/root" false) [])
           "umount: not mounted").
  reflexivity.
Defined.

Lemma killDBUS_opened w e t :
  dbusActive e = true ->
  fails w t (EvOpen (pidFile e)) = None ->
  exists r later,
    killDBUS w e t =
      ((set_dbusActive false e, r), t ++ (EvOpen (pidFile e), None) :: later) /\
    (forall err,
       fails w (t ++ [(EvOpen (pidFile e), None)]) (EvReadAll (pidFile e))
         = Some err -> r = Some err).
Proof.
  intros Hact Hopen. unfold killDBUS. rewrite Hact. cbn [negb].
  fold (pidFile e). unfold bind at 1. unfold call at 1. rewrite Hopen.
  unfold ioutil_ReadAll, query, bind.
  destruct (fails w (t ++ [(EvOpen (pidFile e), None)]) (EvReadAll (pidFile e)))
    as [err|] eqn:Hread.
  - cbn. eexists. eexists. split.
    + rewrite <- !app_assoc. reflexivity.
    + intros err' H. congruence.
  - destruct (ExecStdoutArgs w "kill"
                ["-9";
                 hd "" (Split newline
                          (contents w (t ++ [(EvOpen (pidFile e), None)]) (pidFile e)))]
                ((t ++ [(EvOpen (pidFile e), None)]) ++
                   [(EvReadAll (pidFile e), None)])) as [r t1] eqn:Hkill.
    assert (Hext : exists evs,
               t1 = ((t ++ [(EvOpen (pidFile e), None)]) ++
                       [(EvReadAll (pidFile e), None)]) ++ evs).
    { destruct (extends_ExecStdoutArgs w "kill"
                  ["-9";
                   hd "" (Split newline
                            (contents w (t ++ [(EvOpen (pidFile e), None)]) (pidFile e)))]
                  ((t ++ [(EvOpen (pidFile e), None)]) ++
                     [(EvReadAll (pidFile e), None)])) as [evs He].
      rewrite Hkill in He. now exists evs. }
    destruct Hext as [evs ->].
    cbn. eexists. eexists. split.
    + rewrite <- !app_assoc. reflexivity.
    + intros err' H. discriminate.
Qed.

Lemma killDBUS_not_opened w e t err :
  dbusActive e = true ->
  fails w t (EvOpen (pidFile e)) = Some err ->
  killDBUS w e t = ((e, Some err), t ++ [(EvOpen (pidFile e), Some err)]).
Proof.
  intros Hact Hopen. unfold killDBUS. rewrite Hact. cbn [negb].
  fold (pidFile e). unfold bind, call, ret. now rewrite Hopen.
Qed.

(** What killDBUS does with an active supervisor, path by path: once the
    pid file is open, the deferred function clears the flag whether reading
    the file or the termination signal then fails or not, and a failure to
    read is the error reported; the return on a failed open comes before the
    deferred function is registered, which is the defect shown below. *)
Theorem killDBUS_clears_flag_once_pid_file_is_open w e t :
  dbusActive e = true ->
  (fails w t (EvOpen (pidFile e)) = None ->
   dbusActive (fst (fst (killDBUS w e t))) = false /\
   (forall err,
      fails w (t ++ [(EvOpen (pidFile e), None)]) (EvReadAll (pidFile e))
        = Some err ->
      snd (fst (killDBUS w e t)) = Some err)) /\
  (forall err,
     fails w t (EvOpen (pidFile e)) = Some err ->
     killDBUS w e t = ((e, Some err), t ++ [(EvOpen (pidFile e), Some err)])).
Proof.
  intros Hact. split.
  - intros Hopen.
    destruct (killDBUS_opened w e t Hact Hopen) as [r [later [Hk Hread]]].
    rewrite Hk. cbn. split; [reflexivity | exact Hread].
  - intros err Hopen. now apply killDBUS_not_opened.
Qed.

Lemma killDBUS_unreadable_pid_file :
  dbusActive
    (fst (fst (killDBUS world_unreadable_pidfile (manager_at "/srv/root" true) [])))
    = false /\
  snd (fst (killDBUS world_unreadable_pidfile (manager_at "/srv/root" true) []))
    = Some "read: input/output error".
Proof.
  destruct (killDBUS_clears_flag_once_pid_file_is_open world_unreadable_pidfile
              (manager_at "/srv/root" true) [] eq_refl) as [Hopened _].
  destruct (Hopened eq_refl) as [Hflag Herr].
  split; [exact Hflag|].
  apply Herr. reflexivity.
Defined.

(** C1: the claim is that a stop attempt on an active supervisor reports a
    failure to open or read the pid file and still resets the active flag.
    The code does so when the read fails but not when the open fails: with
    the service marked active and no pid file under the root /srv/root,
    killDBUS returns the error of the open, having asked nothing else, and
    the flag is still set. *)
Lemma killDBUS_keeps_flag_without_pid_file :
  dbusActive (manager_at "/srv/root" true) = true /\
  killDBUS world_no_pidfile (manager_at "/srv/root" true) [] =
    ((manager_at "/srv/root" true, Some "open: no such file or directory"),
     [(EvOpen "/srv/root/var/run/dbus/pid",
       Some "open: no such file or directory")]) /\
  dbusActive
    (fst (fst (killDBUS world_no_pidfile (manager_at "/srv/root" true) [])))
    = true.
Proof.
  split; [reflexivity|]. split; vm_compute; reflexivity.
Qed.

Lemma guard_ok {A} (m : IO (option error)) (fail : error -> A) (k : IO A) t t0 :
  m t = (None, t0) -> guard m fail k t = k t0.
Proof. intros H. unfold guard, bind. now rewrite H. Qed.

(** What FinalizeRoot does once steps 1 to 6 have gone through. *)
Lemma FinalizeRoot_after_steps_1_to_6 w e t e1 t1 :
  finalizeSteps1to6 w e t = ((e1, None), t1) ->
  FinalizeRoot w e t =
    (c <- ChrootExec w (root e1) "eopkg configure-pending" ;;
     match c with
     | Some err => k <- killDBUS w e1 ;; ret (fst k, Some err)
     | None =>
         k <- killDBUS w e1 ;;
         match k with
         | (e2, Some err) => ret (e2, Some err)
         | (e2, None) =>
             d <- ChrootExec w (root e2) "eopkg delete-cache" ;;
             ret (e2, d)
         end
     end) t1.
Proof.
  unfold finalizeSteps1to6, FinalizeRoot. intros H.
  apply guard_success in H; [|reflexivity]. destruct H as [ta [Ha H]].
  apply guard_success in H; [|reflexivity]. destruct H as [tb [Hb H]].
  apply guard_success in H; [|reflexivity]. destruct H as [tc [Hc H]].
  apply guard_success in H; [|reflexivity]. destruct H as [td [Hd H]].
  apply guard_success in H; [|reflexivity]. destruct H as [te [He H]].
  apply guard_success in H; [|reflexivity]. destruct H as [tf [Hf H]].
  rewrite (guard_ok _ _ _ _ _ Ha), (guard_ok _ _ _ _ _ Hb),
    (guard_ok _ _ _ _ _ Hc), (guard_ok _ _ _ _ _ Hd),
    (guard_ok _ _ _ _ _ He), (guard_ok _ _ _ _ _ Hf).
  unfold bind at 1. rewrite H. reflexivity.
Qed.

Lemma finalizeSteps1to6_success w e t e1 t1 :
  finalizeSteps1to6 w e t = ((e1, None), t1) ->
  dbusActive e1 = true /\ root e1 = root e.
Proof.
  unfold finalizeSteps1to6. intros H.
  do 6 (apply guard_success in H; [|reflexivity]; destruct H as [? [_ H]]).
  apply startDBUS_success in H. tauto.
Qed.

(** What FinalizeRoot does when steps 1 to 6 succeed and the pending
    configuration of step 7 fails: killDBUS is run on the history that
    already holds the failed step, with the service marked active, before
    the step-7 error is returned, and whenever killDBUS gets the pid file
    open the manager is left with the service marked inactive. *)
Theorem FinalizeRoot_stops_service_when_hook_fails w e t e1 t1 err t2 :
  finalizeSteps1to6 w e t = ((e1, None), t1) ->
  ChrootExec w (root e1) "eopkg configure-pending" t1 = (Some err, t2) ->
  dbusActive e1 = true /\
  FinalizeRoot w e t =
    ((fst (fst (killDBUS w e1 t2)), Some err), snd (killDBUS w e1 t2)) /\
  (exists later,
     snd (killDBUS w e1 t2) =
       t2 ++ (EvOpen (pidFile e1), fails w t2 (EvOpen (pidFile e1))) :: later) /\
  (fails w t2 (EvOpen (pidFile e1)) = None ->
   dbusActive (fst (fst (FinalizeRoot w e t))) = false).
Proof.
  intros Hsteps Hhook.
  destruct (finalizeSteps1to6_success w e t e1 t1 Hsteps) as [Hact _].
  assert (Hfin : FinalizeRoot w e t =
            ((fst (fst (killDBUS w e1 t2)), Some err), snd (killDBUS w e1 t2))).
  { rewrite (FinalizeRoot_after_steps_1_to_6 w e t e1 t1 Hsteps).
    unfold bind at 1. rewrite Hhook. unfold bind, ret.
    destruct (killDBUS w e1 t2) as [[e2 r] t3]. reflexivity. }
  split; [exact Hact|]. split; [exact Hfin|]. split.
  - destruct (fails w t2 (EvOpen (pidFile e1))) as [oerr|] eqn:Hopen.
    + exists [].
      now rewrite (killDBUS_not_opened w e1 t2 oerr Hact Hopen).
    + destruct (killDBUS_opened w e1 t2 Hact Hopen) as [r [later [Hk _]]].
      exists later. now rewrite Hk.
  - intros Hopen. rewrite Hfin. cbn.
    destruct (killDBUS_opened w e1 t2 Hact Hopen) as [r [later [Hk _]]].
    now rewrite Hk.
Qed.

Lemma FinalizeRoot_failed_hook_stops_dbus :
  snd (fst (FinalizeRoot world_hook_fails (manager_at "/srv/root" false) []))
    = Some "exit status 1" /\
  dbusActive
    (fst (fst (FinalizeRoot world_hook_fails (manager_at "/srv/root" false) [])))
    = false.
Proof.
  let steps :=
    eval vm_compute in
      (finalizeSteps1to6 world_hook_fails (manager_at "/srv/root" false) []) in
  match steps with
  | ((?e1, None), ?t1) =>
      let hook :=
        eval vm_compute in
          (ChrootExec world_hook_fails (root e1) "eopkg configure-pending" t1) in
      match hook with
      | (Some ?err, ?t2) =>
          destruct (FinalizeRoot_stops_service_when_hook_fails world_hook_fails
                      (manager_at "/srv/root" false) [] e1 t1 err t2)
            as [Hact [Hfin [Hlater Hflag]]];
            [vm_compute; reflexivity | vm_compute; reflexivity |]
      end
  end.
  split.
  - rewrite Hfin. reflexivity.
  - apply Hflag. vm_compute. reflexivity.
Defined.

(** C3: the claim is that a FinalizeRoot whose steps 1 to 6 succeed and
    whose step 7 fails stops the service before returning the error and
    leaves the supervisor inactive.  The code does run killDBUS, but through
    the early return of killDBUS on a failed open (the defect of C1) the
    supervisor can be left active: here steps 1 to 6 succeed, the pending
    configuration fails, the last request of the run is the failed opening
    of the pid file, and FinalizeRoot returns the step-7 error with the
    service still marked active. *)
Lemma FinalizeRoot_failed_hook_leaves_flag_set :
  snd (fst (finalizeSteps1to6 world_hook_fails_no_pidfile
              (manager_at "/srv/root" false) [])) = None /\
  fst (ChrootExec world_hook_fails_no_pidfile "/srv/root"
         "eopkg configure-pending"
         (snd (finalizeSteps1to6 world_hook_fails_no_pidfile
                 (manager_at "/srv/root" false) [])))
    = Some "exit status 1" /\
  snd (fst (FinalizeRoot world_hook_fails_no_pidfile
              (manager_at "/srv/root" false) [])) = Some "exit status 1" /\
  last (snd (FinalizeRoot world_hook_fails_no_pidfile
               (manager_at "/srv/root" false) []))
    = Some (EvOpen "/srv/root/var/run/dbus/pid",
            Some "open: no such file or directory") /\
  dbusActive
    (fst (fst (FinalizeRoot world_hook_fails_no_pidfile
                 (manager_at "/srv/root" false) []))) = true.
Proof.
  repeat split; vm_compute; reflexivity.
Qed.

(** ** Preparing a root *)

Lemma componentNames_flat_map (groups acc : list string) :
  fold_left (fun names comp => names ++ ["-c"; comp]) groups acc =
  acc ++ flat_map (fun comp => ["-c"; comp]) groups.
Proof.
  revert acc. induction groups as [|g rest IH]; intros acc; cbn.
  - now rewrite app_nil_r.
  - rewrite IH, <- app_assoc. reflexivity.
Qed.

Lemma guard_keeps_manager (m : IO (option error)) (e : EopkgManager)
  (k : Method) (P : EopkgManager -> Prop) t :
  P e -> (forall t', P (fst (fst (k t')))) ->
  P (fst (fst (guard m (fun err => (e, Some err)) k t))).
Proof.
  intros He Hk. unfold guard, bind, ret.
  destruct (m t) as [[err|] t']; [exact He | apply Hk].
Qed.

Lemma InitRoot_manager w rootPath e t :
  root (fst (fst (InitRoot w rootPath e t))) = rootPath /\
  targetMode (fst (fst (InitRoot w rootPath e t))) = true.
Proof.
  unfold InitRoot.
  apply (guard_keeps_manager _ _ _
           (fun m => root m = rootPath /\ targetMode m = true));
    [now split|intros ta].
  apply (guard_keeps_manager _ _ _
           (fun m => root m = rootPath /\ targetMode m = true));
    [now split|intros tb].
  apply (guard_keeps_manager _ _ _
           (fun m => root m = rootPath /\ targetMode m = true));
    [now split|intros tc].
  apply (guard_keeps_manager _ _ _
           (fun m => root m = rootPath /\ targetMode m = true));
    [now split|intros td].
  unfold bind, ret.
  destruct (BindMount w _ _ td) as [r te]. now split.
Qed.

(** C10 (as amended): InitRoot records the root and sets targetMode before
    anything that can fail, so whatever InitRoot returns the manager is left
    in target mode, and afterwards InstallPackages and InstallGroups run
    eopkg with --ignore-comar after "install -y" and with "-D <root>" at the
    end, and AddRepo runs eopkg with "-D <root>" at the end. *)
Theorem InitRoot_enters_target_mode w rootPath e t :
  let e1 := fst (fst (InitRoot w rootPath e t)) in
  root e1 = rootPath /\ targetMode e1 = true /\
  (forall ignoreSafety packages t',
     InstallPackages w ignoreSafety packages e1 t' =
       (r <- ExecStdoutArgs w "eopkg"
               (["install"; "-y"; "--ignore-comar"] ++ packages
                  ++ (if ignoreSafety then ["--ignore-safety"] else [])
                  ++ ["-D"; rootPath]) ;;
        ret (e1, r)) t') /\
  (forall ignoreSafety groups t',
     InstallGroups w ignoreSafety groups e1 t' =
       (r <- ExecStdoutArgs w "eopkg"
               (["install"; "-y"; "--ignore-comar"]
                  ++ flat_map (fun comp => ["-c"; comp]) groups
                  ++ (if ignoreSafety then ["--ignore-safety"] else [])
                  ++ ["-D"; rootPath]) ;;
        ret (e1, r)) t') /\
  (forall identifier uri t',
     AddRepo w identifier uri e1 t' =
       (r <- ExecStdoutArgs w "eopkg"
               ["add-repo"; identifier; uri; "-D"; rootPath] ;;
        ret (e1, r)) t').
Proof.
  cbv zeta.
  destruct (InitRoot_manager w rootPath e t) as [Hroot Hmode].
  set (e1 := fst (fst (InitRoot w rootPath e t))) in *.
  split; [exact Hroot|]. split; [exact Hmode|].
  split; [|split].
  - intros b packages t'.
    unfold InstallPackages, eopkgExecRoot. rewrite Hmode, Hroot. cbn [negb].
    destruct b; cbn [app]; rewrite <- ?app_assoc; cbn [app];
      rewrite ?app_nil_r; reflexivity.
  - intros b groups t'.
    unfold InstallGroups, eopkgExecRoot. rewrite Hmode, Hroot. cbn [negb].
    rewrite componentNames_flat_map. cbn [app].
    destruct b; cbn [app]; rewrite <- ?app_assoc; cbn [app];
      rewrite ?app_nil_r; reflexivity.
  - intros identifier uri t'.
    unfold AddRepo, eopkgExecRoot. rewrite Hmode, Hroot. reflexivity.
Qed.

Lemma InitRoot_failed_bind_mount_keeps_target_mode :
  snd (fst (InitRoot world_no_bind_mount "/srv/root" NewEopkgManager []))
    = Some "mount: permission denied" /\
  snd (InstallPackages world_no_bind_mount true ["nano"]
         (fst (fst (InitRoot world_no_bind_mount "/srv/root" NewEopkgManager [])))
         []) =
    [(EvLookPath "eopkg", None);
     (EvRun (mkCmd "/usr/bin/eopkg"
               ["/usr/bin/eopkg"; "install"; "-y"; "--ignore-comar"; "nano";
                "--ignore-safety"; "-D"; "/srv/root"] EmptyString), None)].
Proof.
  split; [vm_compute; reflexivity|].
  destruct (InitRoot_enters_target_mode world_no_bind_mount "/srv/root"
              NewEopkgManager []) as [_ [_ [Hinstall _]]].
  rewrite Hinstall. vm_compute. reflexivity.
Defined.

(** C10 (as stated) fails for AddRepo: after InitRoot the repository is
    added with "-D <root>" but without --ignore-comar. *)
Lemma AddRepo_has_no_ignore_comar :
  snd (AddRepo world_ok "solus" "https://packages.getsol.us/shannon/eopkg-index.xml.xz"
         (fst (fst (InitRoot world_ok "/srv/root" NewEopkgManager []))) []) =
    [(EvLookPath "eopkg", None);
     (EvRun (mkCmd "/usr/bin/eopkg"
               ["/usr/bin/eopkg"; "add-repo"; "solus";
                "https://packages.getsol.us/shannon/eopkg-index.xml.xz";
                "-D"; "/srv/root"] ""), None)] /\
  ~ In "--ignore-comar"
      ["/usr/bin/eopkg"; "add-repo"; "solus";
       "https://packages.getsol.us/shannon/eopkg-index.xml.xz";
       "-D"; "/srv/root"].
Proof.
  split; [vm_compute; reflexivity|].
  cbn. intros H. repeat (destruct H as [H|H]; [discriminate|]). exact H.
Qed.

(** ** Runs that stop at the first failure *)

Lemma fail_fast_single ev r : fail_fast [(ev, r)] r.
Proof. exists [], ev. split; [reflexivity | constructor]. Qed.

Lemma fail_fast_after evs1 evs2 r :
  Forall (fun en => snd en = None) evs1 ->
  fail_fast evs2 r -> fail_fast (evs1 ++ evs2) r.
Proof.
  intros H1 [pre [ev [-> Hpre]]].
  exists (evs1 ++ pre), ev. split; [now rewrite app_assoc|].
  apply Forall_app. now split.
Qed.

Lemma fail_fast_succeeded evs :
  fail_fast evs None -> Forall (fun en => snd en = None) evs.
Proof.
  intros [pre [ev [-> Hpre]]]. apply Forall_app. split; [exact Hpre|].
  now repeat constructor.
Qed.

Lemma FailFast_call w ev : FailFast (fun r => r) (call w ev).
Proof.
  intros t. exists [(ev, fails w t ev)]. split; [reflexivity|].
  apply fail_fast_single.
Qed.

Lemma FailFast_guard {A} (res : A -> option error) (m : IO (option error))
  (fail : error -> A) (k : IO A) :
  FailFast (fun r => r) m -> FailFast res k ->
  (forall err, res (fail err) = Some err) ->
  FailFast res (guard m fail k).
Proof.
  intros Hm Hk Hfail t. unfold guard, bind, ret.
  destruct (Hm t) as [evs1 [Ht1 Hff1]].
  destruct (m t) as [[err|] t1]; cbn in Ht1, Hff1; subst t1.
  - exists evs1. cbn. split; [reflexivity|]. now rewrite Hfail.
  - destruct (Hk (t ++ evs1)) as [evs2 [Ht2 Hff2]].
    exists (evs1 ++ evs2). split; [now rewrite Ht2, app_assoc|].
    apply fail_fast_after; [now apply fail_fast_succeeded | exact Hff2].
Qed.

Lemma FailFast_guard_ret {A} (res : A -> option error) (m : IO (option error))
  (fail : error -> A) (a : A) :
  FailFast (fun r => r) m ->
  (forall err, res (fail err) = Some err) -> res a = None ->
  FailFast res (guard m fail (ret a)).
Proof.
  intros Hm Hfail Ha t. unfold guard, bind, ret.
  destruct (Hm t) as [evs1 [Ht1 Hff1]].
  destruct (m t) as [[err|] t1]; cbn in Ht1, Hff1; subst t1;
    exists evs1; cbn; (split; [reflexivity|]).
  - now rewrite Hfail.
  - now rewrite Ha.
Qed.

Lemma FailFast_tag {A} (m : IO (option error)) (a : A) :
  FailFast (fun r => r) m ->
  FailFast snd (bind m (fun r => ret (a, r))).
Proof.
  intros Hm t. unfold bind, ret.
  destruct (Hm t) as [evs [Ht Hff]].
  destruct (m t) as [r t1]. exists evs. now split.
Qed.


Lemma FailFast_ExecStdoutArgs w command args :
  FailFast (fun r => r) (ExecStdoutArgs w command args).
Proof.
  intros t.
  unfold ExecStdoutArgs, execHelper, exec_LookPath, query, Run, call, bind, ret.
  destruct (ContainsSlash command); cbn.
  - eexists. split; [reflexivity | apply fail_fast_single].
  - destruct (fails w t (EvLookPath command)) as [err|]; cbn.
    + eexists. split; [reflexivity | apply fail_fast_single].
    + eexists. split; [rewrite <- app_assoc; reflexivity|].
      apply (fail_fast_after [_]); [now repeat constructor|].
      apply fail_fast_single.
Qed.

Lemma FailFast_ChrootExec w dir command :
  FailFast (fun r => r) (ChrootExec w dir command).
Proof. apply FailFast_ExecStdoutArgs. Qed.

Lemma FailFast_mkdirRequired w rootPath :
  FailFast (fun r => r) (mkdirRequired w rootPath reqDirs).
Proof.
  unfold reqDirs. cbn [mkdirRequired].
  do 2 (apply FailFast_guard; [apply FailFast_call | | reflexivity]).
  apply FailFast_guard_ret; [apply FailFast_call | reflexivity | reflexivity].
Qed.

Lemma FailFast_InitRoot w rootPath e : FailFast snd (InitRoot w rootPath e).
Proof.
  unfold InitRoot.
  apply FailFast_guard; [apply FailFast_mkdirRequired | | reflexivity].
  do 3 (apply FailFast_guard; [apply FailFast_call | | reflexivity]).
  unfold BindMount. apply FailFast_tag, FailFast_call.
Qed.

(** Case analysis on the outcomes of the requests, oldest first. *)
Ltac split_fails :=
  repeat (match goal with
          | |- context [fails ?w ?h ?ev] =>
              lazymatch h with
              | context [fails] => fail
              | _ => destruct (fails w h ev)
              end
          end; cbn -[filepath.Join app firstn]).

Ltac same_history H :=
  rewrite <- ?app_assoc in H; apply app_inv_head in H; cbn [app] in H.

(** ** Preparing a root, step by step *)

(** X1: InitRoot makes its requests in one fixed order (the three required
    directories, the cache source, the two symlinks, the bind mount) and
    stops at the first one that fails: what it asked is a prefix of that
    plan, every request before the last succeeded, the result is the outcome
    of the last one, and a run that returns nil has gone through the whole
    plan. *)
Theorem InitRoot_follows_plan w rootPath e t :
  exists evs,
    snd (InitRoot w rootPath e t) = t ++ evs /\
    fail_fast evs (snd (fst (InitRoot w rootPath e t))) /\
    (exists n,
       map fst evs = firstn n (initRootPlan rootPath (cacheSource e))) /\
    (snd (fst (InitRoot w rootPath e t)) = None ->
     map fst evs = initRootPlan rootPath (cacheSource e)).
Proof.
  destruct (FailFast_InitRoot w rootPath e t) as [evs [Hevs Hff]].
  exists evs. split; [exact Hevs|]. split; [exact Hff|].
  clear Hff. revert Hevs.
  unfold InitRoot, reqDirs, mkdirRequired, BindMount, guard, bind, ret, call,
    initRootPlan.
  cbn -[filepath.Join app firstn].
  split_fails; intros Hevs; same_history Hevs; subst evs;
    (split; [| try discriminate; try reflexivity]).
  - now exists 1%nat.
  - now exists 2%nat.
  - now exists 3%nat.
  - now exists 4%nat.
  - now exists 5%nat.
  - now exists 6%nat.
  - now exists 7%nat.
  - now exists 7%nat.
Qed.

Lemma InitRoot_stops_at_first_symlink :
  exists evs,
    snd (InitRoot world_no_symlinks "/srv/root" NewEopkgManager []) = [] ++ evs /\
    fail_fast evs (Some "symlink: file exists") /\
    map fst evs = firstn 5 (initRootPlan "/srv/root" EopkgCacheDirectory).
Proof.
  destruct (InitRoot_follows_plan world_no_symlinks "/srv/root" NewEopkgManager [])
    as [evs [Hevs [Hff _]]].
  exists evs. split; [exact Hevs|]. split; [exact Hff|].
  vm_compute in Hevs. subst evs. vm_compute. reflexivity.
Defined.

Lemma FinalizeRoot_first_request w e t :
  exists later,
    snd (FinalizeRoot w e t) =
      t ++ (EvUnmount (cacheTarget e), fails w t (EvUnmount (cacheTarget e)))
        :: later.
Proof.
  unfold FinalizeRoot, Unmount.
  match goal with
  | |- exists later, snd (guard (call w ?ev) ?fail ?k t) = _ =>
      destruct (guard_call_first w ev fail k t) as [later [H _]]
  end.
  - unfold CreateDeviceNode.
    repeat (apply extends_guard; auto with io).
    apply extends_bind; [auto with io|].
    intros [e1 [err|]]; [apply extends_ret|].
    apply extends_bind; [auto with io|].
    intros [err|].
    + apply extends_bind; [auto with io | intros; apply extends_ret].
    + apply extends_bind; [auto with io|].
      intros [e2 [err|]]; [apply extends_ret|].
      apply extends_bind; [auto with io | intros; apply extends_ret].
  - now exists later.
Qed.

(** X2: after an InitRoot that returned nil the cache target is
    <root>/var/cache/eopkg/packages; the last thing InitRoot did was to bind
    the cache source onto it, after creating both the cache source and that
    very mount point; and the first request of any later FinalizeRoot is the
    unmount of the same path. *)
Theorem InitRoot_mounts_what_FinalizeRoot_unmounts w rootPath e t e1 t1 :
  InitRoot w rootPath e t = ((e1, None), t1) ->
  cacheTarget e1 =
    filepath.Join [rootPath; "var"; "cache"; "eopkg"; "packages"] /\
  (exists pre,
     t1 = t ++ pre ++ [(EvBindMount (cacheSource e1) (cacheTarget e1), None)] /\
     In (EvMkdirAll (cacheSource e1) 493, None) pre /\
     In (EvMkdirAll (cacheTarget e1) 493, None) pre) /\
  (forall t', exists later,
     snd (FinalizeRoot w e1 t') =
       t' ++ (EvUnmount (cacheTarget e1),
              fails w t' (EvUnmount (cacheTarget e1))) :: later).
Proof.
  intros H. split; [|split].
  - revert H.
    unfold InitRoot, reqDirs, mkdirRequired, BindMount, guard, bind, ret, call.
    cbn -[filepath.Join app firstn].
    split_fails; intros H; try discriminate.
    injection H as He _. now subst e1.
  - revert H.
    unfold InitRoot, reqDirs, mkdirRequired, BindMount, guard, bind, ret, call.
    cbn -[filepath.Join app firstn].
    split_fails; intros H; try discriminate.
    injection H as He Ht. subst e1 t1. cbn -[filepath.Join app].
    rewrite <- !app_assoc. cbn [app].
    match goal with
    | |- exists pre, _ ++ [?a; ?b; ?c; ?d; ?f; ?g; _] = _ /\ _ =>
        exists [a; b; c; d; f; g]
    end.
    split; [reflexivity|]. split.
    + right. right. right. left. reflexivity.
    + right. right. left. destruct (String.eqb rootPath EmptyString); reflexivity.
  - intros t'. apply FinalizeRoot_first_request.
Qed.

Lemma InitRoot_then_FinalizeRoot_same_mount_point :
  cacheTarget (fst (fst (InitRoot world_not_mounted "/srv/root" NewEopkgManager [])))
    = "/srv/root/var/cache/eopkg/packages" /\
  last (snd (InitRoot world_not_mounted "/srv/root" NewEopkgManager []))
    = Some (EvBindMount "/var/lib/evobuild/packages"
              "/srv/root/var/cache/eopkg/packages", None) /\
  snd (FinalizeRoot world_not_mounted
         (fst (fst (InitRoot world_not_mounted "/srv/root" NewEopkgManager [])))
         []) =
    [(EvUnmount "/srv/root/var/cache/eopkg/packages", Some "umount: not mounted")].
Proof.
  let r := eval vm_compute in
             (InitRoot world_not_mounted "/srv/root" NewEopkgManager []) in
  match r with
  | ((?e1, None), ?t1) =>
      destruct (InitRoot_mounts_what_FinalizeRoot_unmounts world_not_mounted
                  "/srv/root" NewEopkgManager [] e1 t1)
        as [Htarget [Hmount Hunmount]]; [vm_compute; reflexivity|]
  end.
  split; [vm_compute; reflexivity|].
  split; vm_compute; reflexivity.
Defined.

(** ** The supervisor, further *)

Lemma killDBUS_inactive w e t :
  dbusActive e = false -> killDBUS w e t = ((e, None), t).
Proof. intros H. unfold killDBUS. now rewrite H. Qed.

(** X3: stopping a supervisor that is not active returns success and
    changes neither the manager nor the world; and after any stop that found
    the supervisor inactive or got as far as opening the pid file, a second
    stop is such a no-op. *)
Theorem killDBUS_twice_is_once w e t :
  (dbusActive e = false -> killDBUS w e t = ((e, None), t)) /\
  (dbusActive e = false \/ fails w t (EvOpen (pidFile e)) = None ->
   killDBUS w (fst (fst (killDBUS w e t))) (snd (killDBUS w e t)) =
     ((fst (fst (killDBUS w e t)), None), snd (killDBUS w e t))).
Proof.
  split; [apply killDBUS_inactive|].
  intros H. apply killDBUS_inactive.
  destruct (dbusActive e) eqn:Hact.
  - destruct H as [H|H]; [discriminate|].
    destruct (killDBUS_opened w e t Hact H) as [r [later [Hk _]]].
    now rewrite Hk.
  - now rewrite (killDBUS_inactive w e t Hact).
Qed.

Lemma killDBUS_twice_with_pid_file :
  snd (killDBUS world_ok
         (fst (fst (killDBUS world_ok (manager_at "/srv/root" true) [])))
         (snd (killDBUS world_ok (manager_at "/srv/root" true) [])))
    = snd (killDBUS world_ok (manager_at "/srv/root" true) []) /\
  snd (fst (killDBUS world_ok
              (fst (fst (killDBUS world_ok (manager_at "/srv/root" true) [])))
              (snd (killDBUS world_ok (manager_at "/srv/root" true) []))))
    = None.
Proof.
  destruct (killDBUS_twice_is_once world_ok (manager_at "/srv/root" true) [])
    as [_ Htwice].
  rewrite Htwice; [split; reflexivity|].
  right. reflexivity.
Defined.

(** X4: when startDBUS returns an error the manager is exactly as it was
    and was not active; the run stopped at its first failing request, whose
    error is the one returned; and if the bus daemon was launched at all in
    that run, its launch is the request that failed. *)
Theorem startDBUS_failure_stays_inactive w e t e1 err t1 :
  startDBUS w e t = ((e1, Some err), t1) ->
  e1 = e /\ dbusActive e = false /\
  exists evs,
    t1 = t ++ evs /\ fail_fast evs (Some err) /\
    (forall en, In en evs -> is_launch (root e) en = true -> snd en = Some err).
Proof.
  unfold startDBUS. destruct (dbusActive e) eqn:Hact; [discriminate|].
  unfold guard, ChrootExec, ExecStdoutArgs, execHelper, exec_LookPath, query,
    Run, call, bind, ret.
  cbn -[app].
  split_fails; intros H; try discriminate;
    injection H as He Herr Ht; subst e1 t1;
    (split; [reflexivity|]); (split; [reflexivity|]);
    rewrite <- ?app_assoc; cbn [app];
    eexists; (split; [reflexivity|]); rewrite Herr.
  - split; [apply fail_fast_single|].
    intros en [<-|[]]. discriminate.
  - split.
    + apply (fail_fast_after [_]); [now repeat constructor|].
      apply fail_fast_single.
    + intros en [<-|[<-|[]]]; [discriminate|].
      unfold is_launch. cbn. rewrite bool_decide_eq_true. congruence.
  - split.
    + apply (fail_fast_after [_; _]); [now repeat constructor|].
      apply fail_fast_single.
    + intros en [<-|[<-|[<-|[]]]]; [discriminate| |discriminate].
      unfold is_launch. cbn. rewrite bool_decide_eq_true. congruence.
  - split.
    + apply (fail_fast_after [_; _; _]); [now repeat constructor|].
      apply fail_fast_single.
    + intros en [<-|[<-|[<-|[<-|[]]]]]; [discriminate| |discriminate|].
      * unfold is_launch. cbn. rewrite bool_decide_eq_true. congruence.
      * reflexivity.
Qed.

Lemma startDBUS_without_daemon :
  fst (startDBUS world_no_dbus_daemon (manager_at "/srv/root" false) []) =
    (manager_at "/srv/root" false, Some "exit status 127") /\
  exists evs,
    snd (startDBUS world_no_dbus_daemon (manager_at "/srv/root" false) [])
      = [] ++ evs /\
    fail_fast evs (Some "exit status 127").
Proof.
  let r := eval vm_compute in
             (startDBUS world_no_dbus_daemon (manager_at "/srv/root" false) []) in
  match r with
  | ((?e1, Some ?err), ?t1) =>
      destruct (startDBUS_failure_stays_inactive world_no_dbus_daemon
                  (manager_at "/srv/root" false) [] e1 err t1)
        as [He [Hact [evs [Hevs [Hff Hlaunch]]]]]; [vm_compute; reflexivity|]
  end.
  split; [vm_compute; reflexivity|].
  exists evs. split; [|exact Hff].
  rewrite <- Hevs. vm_compute. reflexivity.
Defined.

(** ** Finalizing a root, further *)

Lemma same_settings_refl e : same_settings e e.
Proof. now repeat split. Qed.

Lemma same_settings_flag e b : same_settings e (set_dbusActive b e).
Proof. now repeat split. Qed.

Lemma same_settings_trans e e1 e2 :
  same_settings e e1 -> same_settings e1 e2 -> same_settings e e2.
Proof.
  unfold same_settings. intros [A [B [C D]]] [A' [B' [C' D']]].
  repeat split; congruence.
Qed.

Lemma startDBUS_settings w e t : same_settings e (fst (fst (startDBUS w e t))).
Proof.
  unfold startDBUS. destruct (dbusActive e); [apply same_settings_refl|].
  unfold guard, bind, ret.
  destruct (ChrootExec w (root e) "dbus-uuidgen --ensure" t) as [[err|] ta];
    [apply same_settings_refl|].
  destruct (ChrootExec w (root e) "dbus-daemon --system" ta) as [[err|] tb];
    [apply same_settings_refl | apply same_settings_flag].
Qed.

Lemma killDBUS_result w e t :
  fst (fst (killDBUS w e t)) = e \/
  fst (fst (killDBUS w e t)) = set_dbusActive false e.
Proof.
  destruct (dbusActive e) eqn:Hact.
  - destruct (fails w t (EvOpen (pidFile e))) as [err|] eqn:Hopen.
    + left. now rewrite (killDBUS_not_opened w e t err Hact Hopen).
    + right. destruct (killDBUS_opened w e t Hact Hopen) as [r [later [Hk _]]].
      now rewrite Hk.
  - left. now rewrite (killDBUS_inactive w e t Hact).
Qed.

Lemma killDBUS_settings w e t : same_settings e (fst (fst (killDBUS w e t))).
Proof.
  destruct (killDBUS_result w e t) as [-> | ->];
    [apply same_settings_refl | apply same_settings_flag].
Qed.

Lemma guard_keeps (m : IO (option error)) (e : EopkgManager) (k : Method) t :
  (forall t', same_settings e (fst (fst (k t')))) ->
  same_settings e (fst (fst (guard m (fun err => (e, Some err)) k t))).
Proof.
  intros Hk. unfold guard, bind, ret.
  destruct (m t) as [[err|] t']; [apply same_settings_refl | apply Hk].
Qed.

(** X5: whatever happens in FinalizeRoot, and whatever it returns, the
    manager keeps its root, its cache target, its target mode and its cache
    source: only the mark of the running bus can change.  The same holds for
    Cleanup. *)
Theorem FinalizeRoot_keeps_settings w e t :
  same_settings e (fst (fst (FinalizeRoot w e t))) /\
  same_settings e (fst (fst (Cleanup w e t))).
Proof.
  split; [|apply killDBUS_settings].
  unfold FinalizeRoot.
  do 5 (apply guard_keeps; intros ?).
  apply guard_keeps; intros tf.
  unfold bind, ret.
  pose proof (startDBUS_settings w e tf) as Hs.
  destruct (startDBUS w e tf) as [[ea [err|]] ta]; cbn in Hs; [exact Hs|].
  destruct (ChrootExec w (root ea) "eopkg configure-pending" ta) as [[err|] tb].
  - pose proof (killDBUS_settings w ea tb) as Hk.
    destruct (killDBUS w ea tb) as [[ec r] tc]. cbn in *.
    eapply same_settings_trans; eassumption.
  - pose proof (killDBUS_settings w ea tb) as Hk.
    destruct (killDBUS w ea tb) as [[ec [err|]] tc]; cbn in *.
    + eapply same_settings_trans; eassumption.
    + destruct (ChrootExec w (root ec) "eopkg delete-cache" tc) as [d td].
      cbn. eapply same_settings_trans; eassumption.
Qed.

Lemma FinalizeRoot_success_inv w e t e1 t1 :
  FinalizeRoot w e t = ((e1, None), t1) ->
  exists ea ta tb tc,
    finalizeSteps1to6 w e t = ((ea, None), ta) /\
    ChrootExec w (root ea) "eopkg configure-pending" ta = (None, tb) /\
    killDBUS w ea tb = ((e1, None), tc) /\
    ChrootExec w (root e1) "eopkg delete-cache" tc = (None, t1).
Proof.
  intros H.
  assert (Hs : exists ea ta, finalizeSteps1to6 w e t = ((ea, None), ta)).
  { revert H. unfold FinalizeRoot, finalizeSteps1to6. intros H.
    apply guard_success in H; [|reflexivity]. destruct H as [ta [Ha H]].
    apply guard_success in H; [|reflexivity]. destruct H as [tb [Hb H]].
    apply guard_success in H; [|reflexivity]. destruct H as [tc [Hc H]].
    apply guard_success in H; [|reflexivity]. destruct H as [td [Hd H]].
    apply guard_success in H; [|reflexivity]. destruct H as [te [He H]].
    apply guard_success in H; [|reflexivity]. destruct H as [tf [Hf H]].
    rewrite (guard_ok _ _ _ _ _ Ha), (guard_ok _ _ _ _ _ Hb),
      (guard_ok _ _ _ _ _ Hc), (guard_ok _ _ _ _ _ Hd),
      (guard_ok _ _ _ _ _ He), (guard_ok _ _ _ _ _ Hf).
    unfold bind, ret in H.
    destruct (startDBUS w e tf) as [[ea [err|]] tg]; [discriminate|].
    now exists ea, tg. }
  destruct Hs as [ea [ta Hs]].
  rewrite (FinalizeRoot_after_steps_1_to_6 w e t ea ta Hs) in H.
  unfold bind, ret in H.
  destruct (ChrootExec w (root ea) "eopkg configure-pending" ta)
    as [[err|] tb] eqn:Hhook.
  - destruct (killDBUS w ea tb) as [[ec r] tc]. discriminate.
  - destruct (killDBUS w ea tb) as [[ec [err|]] tc] eqn:Hkill; [discriminate|].
    destruct (ChrootExec w (root ec) "eopkg delete-cache" tc) as [d td] eqn:Hdel.
    injection H as He Hd Ht. subst ec d td.
    now exists ea, ta, tb, tc.
Qed.

(** X6: a FinalizeRoot that returns nil leaves the bus marked inactive, so
    that a Cleanup right after it returns nil and asks nothing of the
    world. *)
Theorem FinalizeRoot_success_leaves_bus_stopped w e t e1 t1 :
  FinalizeRoot w e t = ((e1, None), t1) ->
  dbusActive e1 = false /\ Cleanup w e1 t1 = ((e1, None), t1).
Proof.
  intros H.
  destruct (FinalizeRoot_success_inv w e t e1 t1 H)
    as [ea [ta [tb [tc [Hs [_ [Hkill _]]]]]]].
  destruct (finalizeSteps1to6_success w e t ea ta Hs) as [Hact _].
  assert (Hflag : dbusActive e1 = false).
  { destruct (fails w tb (EvOpen (pidFile ea))) as [err|] eqn:Hopen.
    - rewrite (killDBUS_not_opened w ea tb err Hact Hopen) in Hkill.
      discriminate.
    - destruct (killDBUS_opened w ea tb Hact Hopen) as [r [later [Hk _]]].
      rewrite Hk in Hkill. injection Hkill as <- _ _. reflexivity. }
  split; [exact Hflag|]. unfold Cleanup. now apply killDBUS_inactive.
Qed.

Lemma FinalizeRoot_then_Cleanup :
  snd (fst (FinalizeRoot world_ok (manager_at "/srv/root" false) [])) = None /\
  dbusActive (fst (fst (FinalizeRoot world_ok (manager_at "/srv/root" false) [])))
    = false /\
  Cleanup world_ok
    (fst (fst (FinalizeRoot world_ok (manager_at "/srv/root" false) [])))
    (snd (FinalizeRoot world_ok (manager_at "/srv/root" false) [])) =
  ((fst (fst (FinalizeRoot world_ok (manager_at "/srv/root" false) [])), None),
   snd (FinalizeRoot world_ok (manager_at "/srv/root" false) [])).
Proof.
  let r := eval vm_compute in
             (FinalizeRoot world_ok (manager_at "/srv/root" false) []) in
  match r with
  | ((?e1, None), ?t1) =>
      assert (Hrun : FinalizeRoot world_ok (manager_at "/srv/root" false) []
                     = ((e1, None), t1)) by (vm_compute; reflexivity);
      destruct (FinalizeRoot_success_leaves_bus_stopped world_ok
                  (manager_at "/srv/root" false) [] e1 t1 Hrun)
        as [Hflag Hclean]
  end.
  rewrite Hrun. cbn [fst snd]. split; [reflexivity|].
  split; [exact Hflag | exact Hclean].
Defined.

(** X7: a FinalizeRoot that returns nil has carried out its nine steps one
    after the other, each on the history left by the one before and each
    without error: the unmount of the cache target, the copy of the base
    layout, ldconfig, the accounts of the bus, the two device nodes, the
    start of the bus (which leaves the bus marked active), the pending
    configuration, the stop of the bus (whose first request, right after the
    pending configuration, is the opening of the pid file, which succeeds,
    and which leaves the bus marked inactive), and the deletion of the
    package cache, which leaves the final history. *)
Theorem FinalizeRoot_success_order w e t e1 t1 :
  FinalizeRoot w e t = ((e1, None), t1) ->
  exists t_unmount t_copy t_ld t_acct t_rand t_urand ea t_start t_hook t_stop,
    Unmount w (cacheTarget e) t = (None, t_unmount) /\
    copyBaselayout w e t_unmount = (None, t_copy) /\
    ChrootExec w (root e) "ldconfig" t_copy = (None, t_ld) /\
    configureDbus w e t_ld = (None, t_acct) /\
    CreateDeviceNode w (root e) DevNodeRandom t_acct = (None, t_rand) /\
    CreateDeviceNode w (root e) DevNodeURandom t_rand = (None, t_urand) /\
    startDBUS w e t_urand = ((ea, None), t_start) /\
    dbusActive ea = true /\
    ChrootExec w (root e) "eopkg configure-pending" t_start = (None, t_hook) /\
    killDBUS w ea t_hook = ((e1, None), t_stop) /\
    (exists stop, t_stop = t_hook ++ (EvOpen (pidFile e), None) :: stop) /\
    dbusActive e1 = false /\
    ChrootExec w (root e) "eopkg delete-cache" t_stop = (None, t1).
Proof.
  intros H. unfold FinalizeRoot in H.
  apply guard_success in H; [|reflexivity]. destruct H as [t_a [Ha H]].
  apply guard_success in H; [|reflexivity]. destruct H as [t_b [Hb H]].
  apply guard_success in H; [|reflexivity]. destruct H as [t_c [Hc H]].
  apply guard_success in H; [|reflexivity]. destruct H as [t_d [Hd H]].
  apply guard_success in H; [|reflexivity]. destruct H as [t_e [He H]].
  apply guard_success in H; [|reflexivity]. destruct H as [t_f [Hf H]].
  unfold bind, ret in H.
  destruct (startDBUS w e t_f) as [[ea [err|]] t_g] eqn:Hstart; [discriminate|].
  destruct (ChrootExec w (root ea) "eopkg configure-pending" t_g)
    as [[err|] t_h] eqn:Hhook.
  { destruct (killDBUS w ea t_h) as [[ec r] t_i]. discriminate. }
  destruct (killDBUS w ea t_h) as [[ec [err|]] t_i] eqn:Hkill; [discriminate|].
  destruct (ChrootExec w (root ec) "eopkg delete-cache" t_i) as [d t_j] eqn:Hdel.
  injection H as -> -> ->.
  destruct (startDBUS_success w e t_f ea t_g Hstart) as [Hact [Hroot _]].
  assert (Hroot1 : root e1 = root e).
  { pose proof (killDBUS_settings w ea t_h) as Hk. rewrite Hkill in Hk.
    destruct Hk as [Hk _]. cbn in Hk. congruence. }
  assert (Hpid : pidFile ea = pidFile e) by (unfold pidFile; now rewrite Hroot).
  rewrite Hroot in Hhook. rewrite Hroot1 in Hdel.
  assert (Hstop : (exists stop, t_i = t_h ++ (EvOpen (pidFile e), None) :: stop)
                  /\ dbusActive e1 = false).
  { destruct (fails w t_h (EvOpen (pidFile ea))) as [err|] eqn:Hopen.
    - rewrite (killDBUS_not_opened w ea t_h err Hact Hopen) in Hkill.
      discriminate.
    - destruct (killDBUS_opened w ea t_h Hact Hopen) as [r [later [Hk _]]].
      rewrite Hk in Hkill. injection Hkill as <- _ <-.
      split; [|reflexivity]. exists later. now rewrite Hpid. }
  destruct Hstop as [Hstop Hflag].
  exists t_a, t_b, t_c, t_d, t_e, t_f, ea, t_g, t_h, t_i.
  repeat (split; [assumption|]). assumption.
Qed.

Lemma FinalizeRoot_success_order_at_srv_root :
  exists t_start t_hook t_stop,
    ChrootExec world_ok "/srv/root" "eopkg configure-pending" t_start
      = (None, t_hook) /\
    (exists stop,
       t_stop = t_hook ++ (EvOpen "/srv/root/var/run/dbus/pid", None) :: stop) /\
    ChrootExec world_ok "/srv/root" "eopkg delete-cache" t_stop
      = (None, snd (FinalizeRoot world_ok (manager_at "/srv/root" false) [])).
Proof.
  let r := eval vm_compute in
             (FinalizeRoot world_ok (manager_at "/srv/root" false) []) in
  match r with
  | ((?e1, None), ?t1) =>
      assert (Hrun : FinalizeRoot world_ok (manager_at "/srv/root" false) []
                     = ((e1, None), t1)) by (vm_compute; reflexivity);
      destruct (FinalizeRoot_success_order world_ok
                  (manager_at "/srv/root" false) [] e1 t1 Hrun)
        as [t_unmount [t_copy [t_ld [t_acct [t_rand [t_urand [ea [t_start
             [t_hook [t_stop
                [_ [_ [_ [_ [_ [_ [_ [_ [Hhook [_ [Hstop [_ Hdel]]]]]]]]]]]]]]]]]]]]]]
  end.
  exists t_start, t_hook, t_stop.
  split; [exact Hhook|]. split; [exact Hstop|].
  rewrite Hrun. exact Hdel.
Defined.

(** ** Package commands *)



(** ** Copying a file *)

Ltac in_cases H :=
  cbn [In] in H;
  repeat match type of H with
         | _ \/ _ => destruct H as [H|H]
         | False => contradiction H
         end.

Ltac CopyFile_cases :=
  unfold CopyFile, os_Stat, query, guard, bind, ret, call;
  change (Z.lor (Z.lor O_TRUNC O_CREATE) O_WRONLY) with 577;
  cbn -[app]; split_fails.

(** X9: CopyFile returns an error exactly when opening the source, creating
    the target or copying the content failed, and the error is that of the
    failed request; a failure to stat, to close or to set the times never
    turns into an error. *)
Theorem CopyFile_error_origin w source dest t :
  exists evs,
    snd (CopyFile w source dest t) = t ++ evs /\
    forall err,
      fst (CopyFile w source dest t) = Some err <->
      exists ev, In (ev, Some err) evs /\ copy_critical source dest ev.
Proof.
  destruct (extends_CopyFile w source dest t) as [evs Hevs].
  exists evs. split; [exact Hevs|]. revert Hevs.
  CopyFile_cases; intros Hevs; same_history Hevs; subst evs; intros err'; split;
    try (intros H; discriminate H);
    try (intros H; injection H as <-; eexists; split;
         [cbn; eauto 10 | unfold copy_critical; eauto]);
    intros [ev [Hin Hcrit]]; in_cases Hin; try discriminate Hin;
    injection Hin as Hev Herr; subst;
    destruct Hcrit as [Hc|[[perm Hc]|Hc]]; try discriminate Hc; reflexivity.
Qed.

Lemma CopyFile_disk_full :
  fst (CopyFile world_copy_fails "/srv/root/usr/share/baselayout/passwd"
         "/srv/root/etc/passwd" []) = Some "write: no space left on device".
Proof.
  destruct (CopyFile_error_origin world_copy_fails
              "/srv/root/usr/share/baselayout/passwd" "/srv/root/etc/passwd" [])
    as [evs [Hevs Horigin]].
  apply Horigin.
  exists (EvCopy "/srv/root/etc/passwd" "/srv/root/usr/share/baselayout/passwd").
  split; [|right; right; reflexivity].
  vm_compute in Hevs. subst evs. cbn. auto 10.
Defined.


(** X10: CopyFile closes what it opens, on every path: once the source has
    been opened, closing it is the last thing CopyFile does, and a target
    that has been created is closed before that. *)
Theorem CopyFile_closes_what_it_opens w source dest t :
  exists evs,
    snd (CopyFile w source dest t) = t ++ evs /\
    (In (EvOpen source, None) evs ->
     exists o, last evs = Some (EvClose source, o)) /\
    (forall perm,
       In (EvOpenFile dest 577 perm, None) evs ->
       exists before after o,
         evs = before ++ (EvClose dest, o) :: after /\ after <> []).
Proof.
  destruct (extends_CopyFile w source dest t) as [evs Hevs].
  exists evs. split; [exact Hevs|]. revert Hevs.
  CopyFile_cases; intros Hevs; same_history Hevs; subst evs; split;
    try (intros H; in_cases H; discriminate H);
    try (intros perm H; in_cases H; discriminate H);
    try (intros _; eexists; reflexivity);
    intros perm _; eexists [_; _; _; _]; do 2 eexists;
    (split; [reflexivity | discriminate]).
Qed.

Lemma CopyFile_closes_after_failed_copy :
  last (snd (CopyFile world_copy_fails "/srv/root/usr/share/baselayout/passwd"
               "/srv/root/etc/passwd" []))
    = Some (EvClose "/srv/root/usr/share/baselayout/passwd", None).
Proof.
  destruct (CopyFile_closes_what_it_opens world_copy_fails
              "/srv/root/usr/share/baselayout/passwd" "/srv/root/etc/passwd" [])
    as [evs [Hevs [Hsource _]]].
  cbn [app] in Hevs. rewrite Hevs.
  destruct Hsource as [o Hlast].
  - rewrite <- Hevs. vm_compute. auto.
  - rewrite Hlast. rewrite <- Hevs in Hlast. vm_compute in Hlast.
    symmetry. exact Hlast.
Defined.

(** X11: a CopyFile that found the source and returned nil has created (or
    truncated) the target write-only with the mode of the source, copied the
    content, and asked for the target's times to be set to the modification
    time of the source, in that order. *)
Theorem CopyFile_copies_mode_and_time w source dest t :
  fails w t (EvStat source) = None ->
  fst (CopyFile w source dest t) = None ->
  exists o1 o2 o3,
    snd (CopyFile w source dest t) =
      t ++ [(EvStat source, None);
            (EvOpen source, None);
            (EvOpenFile dest (Z.lor (Z.lor O_TRUNC O_CREATE) O_WRONLY)
               (Mode (fileinfo w t source)), None);
            (EvCopy dest source, None);
            (EvClose dest, o1);
            (EvChtimes dest (ModTime (fileinfo w t source))
               (ModTime (fileinfo w t source)), o2);
            (EvClose source, o3)].
Proof.
  intros Hstat.
  unfold CopyFile, os_Stat, query, guard, bind, ret, call.
  rewrite Hstat. cbn -[app Z.lor].
  destruct (fails w (t ++ [(EvStat source, None)]) (EvOpen source));
    cbn -[app Z.lor]; [discriminate|].
  match goal with
  | |- context [fails w ?h (EvOpenFile ?d ?f ?m)] =>
      destruct (fails w h (EvOpenFile d f m)); cbn -[app Z.lor]; [discriminate|]
  end.
  match goal with
  | |- context [fails w ?h (EvCopy ?d ?s)] =>
      destruct (fails w h (EvCopy d s)); cbn -[app Z.lor]; [discriminate|]
  end.
  intros _. do 3 eexists. rewrite <- !app_assoc. cbn [app]. reflexivity.
Qed.

Lemma CopyFile_ignores_close_and_chtimes :
  exists o1 o2 o3,
    snd (CopyFile world_careless "/srv/root/usr/share/baselayout/passwd"
           "/srv/root/etc/passwd" []) =
      [] ++ [(EvStat "/srv/root/usr/share/baselayout/passwd", None);
             (EvOpen "/srv/root/usr/share/baselayout/passwd", None);
             (EvOpenFile "/srv/root/etc/passwd" 577 (Mode treeInfo), None);
             (EvCopy "/srv/root/etc/passwd"
                "/srv/root/usr/share/baselayout/passwd", None);
             (EvClose "/srv/root/etc/passwd", o1);
             (EvChtimes "/srv/root/etc/passwd" 1700000000 1700000000, o2);
             (EvClose "/srv/root/usr/share/baselayout/passwd", o3)].
Proof.
  apply (CopyFile_copies_mode_and_time world_careless
           "/srv/root/usr/share/baselayout/passwd" "/srv/root/etc/passwd" []);
    reflexivity.
Defined.

(** ** Copying the base layout *)

Lemma CopyFile_touches w source dest t :
  exists evs,
    snd (CopyFile w source dest t) = t ++ evs /\
    (forall p flag perm o, In (EvOpenFile p flag perm, o) evs -> p = dest) /\
    (forall p o, In (EvOpen p, o) evs -> p = source).
Proof.
  destruct (extends_CopyFile w source dest t) as [evs Hevs].
  exists evs. split; [exact Hevs|]. revert Hevs.
  CopyFile_cases; intros Hevs; same_history Hevs; subst evs; split;
    try (intros p flag perm o H; in_cases H; try discriminate H;
         now injection H as <-);
    try (intros p o H; in_cases H; try discriminate H; now injection H as <-).
Qed.

Lemma copyFiles_touches w baseDir tgtDir files t :
  exists evs,
    snd (copyFiles w baseDir tgtDir files t) = t ++ evs /\
    (forall p flag perm o,
       In (EvOpenFile p flag perm, o) evs ->
       exists file, In file files /\ p = filepath.Join [tgtDir; Name file]) /\
    (forall p o,
       In (EvOpen p, o) evs ->
       exists file, In file files /\ p = filepath.Join [baseDir; Name file]).
Proof.
  revert t. induction files as [|file rest IH]; intros t.
  - exists []. cbn. rewrite app_nil_r. split; [reflexivity|]. split; intros; contradiction.
  - cbn [copyFiles]. unfold guard, bind, ret.
    destruct (CopyFile_touches w (filepath.Join [baseDir; Name file])
                (filepath.Join [tgtDir; Name file]) t)
      as [evs1 [H1 [Hw1 Hr1]]].
    destruct (CopyFile w (filepath.Join [baseDir; Name file])
                (filepath.Join [tgtDir; Name file]) t) as [[err|] t1];
      cbn [snd] in H1; subst t1.
    + exists evs1. split; [reflexivity|]. split.
      * intros p flag perm o Hin. exists file. split; [now left|].
        eapply Hw1; eassumption.
      * intros p o Hin. exists file. split; [now left|].
        eapply Hr1; eassumption.
    + destruct (IH (t ++ evs1)) as [evs2 [H2 [Hw2 Hr2]]].
      exists (evs1 ++ evs2). split; [now rewrite H2, app_assoc|]. split.
      * intros p flag perm o Hin. apply in_app_or in Hin.
        destruct Hin as [Hin|Hin].
        { exists file. split; [now left|]. eapply Hw1; eassumption. }
        { destruct (Hw2 p flag perm o Hin) as [f [Hf Hp]].
          exists f. split; [now right | exact Hp]. }
      * intros p o Hin. apply in_app_or in Hin.
        destruct Hin as [Hin|Hin].
        { exists file. split; [now left|]. eapply Hr1; eassumption. }
        { destruct (Hr2 p o Hin) as [f [Hf Hp]].
          exists f. split; [now right | exact Hp]. }
Qed.

(** X12: every file that copyBaselayout creates is the join of <root>/etc
    with the name of an entry that the listing of the baselayout directory
    returned, and every file that it opens for reading is the join of
    <root>/usr/share/baselayout with such a name (the names are joined as
    they were listed, without any check); when the listing fails, its error
    is returned and nothing is copied. *)
Theorem copyBaselayout_paths_come_from_listing w e t :
  exists evs,
    snd (copyBaselayout w e t) = t ++ evs /\
    (forall p flag perm o,
       In (EvOpenFile p flag perm, o) evs ->
       exists file,
         In file (dirents w t (filepath.Join [root e; "usr"; "share"; "baselayout"]))
         /\ p = filepath.Join [filepath.Join [root e; "etc"]; Name file]) /\
    (forall p o,
       In (EvOpen p, o) evs ->
       exists file,
         In file (dirents w t (filepath.Join [root e; "usr"; "share"; "baselayout"]))
         /\ p = filepath.Join
                  [filepath.Join [root e; "usr"; "share"; "baselayout"];
                   Name file]) /\
    (forall err,
       fails w t (EvReadDir (filepath.Join [root e; "usr"; "share"; "baselayout"]))
         = Some err ->
       fst (copyBaselayout w e t) = Some err /\
       evs = [(EvReadDir (filepath.Join [root e; "usr"; "share"; "baselayout"]),
               Some err)]).
Proof.
  unfold copyBaselayout, ioutil_ReadDir, query, bind, ret.
  set (baseDir := filepath.Join [root e; "usr"; "share"; "baselayout"]).
  set (tgtDir := filepath.Join [root e; "etc"]).
  destruct (fails w t (EvReadDir baseDir)) as [err|].
  - eexists. split; [reflexivity|]. cbn [snd fst].
    split; [|split].
    + intros p flag perm o [H|[]]. discriminate.
    + intros p o [H|[]]. discriminate.
    + intros err' H. injection H as <-. now split.
  - destruct (copyFiles_touches w baseDir tgtDir (dirents w t baseDir)
                (t ++ [(EvReadDir baseDir, None)])) as [evs [Hevs [Hw Hr]]].
    exists ((EvReadDir baseDir, None) :: evs).
    split; [rewrite Hevs, <- app_assoc; reflexivity|].
    split; [|split].
    + intros p flag perm o [H|H]; [discriminate|]. eapply Hw; eassumption.
    + intros p o [H|H]; [discriminate|]. eapply Hr; eassumption.
    + intros err H. discriminate.
Qed.

Lemma copyBaselayout_copies_passwd :
  exists p perm o,
    In (EvOpenFile p 577 perm, o)
       (snd (copyBaselayout world_ok (manager_at "/srv/root" false) [])) /\
    p = "/srv/root/etc/passwd".
Proof.
  destruct (copyBaselayout_paths_come_from_listing world_ok
              (manager_at "/srv/root" false) []) as [evs [Hevs [Hwrites _]]].
  cbn [app] in Hevs.
  exists "/srv/root/etc/passwd", (Mode treeInfo), None.
  split; [vm_compute; auto 10|].
  destruct (Hwrites "/srv/root/etc/passwd" 577 (Mode treeInfo) None)
    as [file [Hfile Hp]].
  - rewrite <- Hevs. vm_compute. auto 10.
  - reflexivity.
Defined.

(** ** Images, further *)

Lemma GetSquashfsArgs_known ct args :
  GetSquashfsArgs ct = inr args ->
  (ct = CompressionGzip \/ ct = CompressionXZ) /\ args = ["-comp"; ct].
Proof.
  unfold GetSquashfsArgs.
  destruct (String.eqb ct CompressionGzip) eqn:Hg.
  - apply String.eqb_eq in Hg. intros H. injection H as <-. subst ct. auto.
  - destruct (String.eqb ct CompressionXZ) eqn:Hx; [|discriminate].
    apply String.eqb_eq in Hx. intros H. injection H as <-. subst ct. auto.
Qed.

(** X13: whenever CreateSquashfs runs a process, the compression kind is
    gzip or xz, the process is the mksquashfs found on the PATH, its
    arguments are the source path, the output file, -keep-as-directory
    exactly when the source is a directory, then -comp and the kind, and the
    outcome of that process is what CreateSquashfs returns. *)
Theorem CreateSquashfs_command_line w path outputFile ct t :
  exists evs,
    snd (CreateSquashfs w path outputFile ct t) = t ++ evs /\
    forall c o,
      In (EvRun c, o) evs ->
      fst (CreateSquashfs w path outputFile ct t) = o /\
      (ct = CompressionGzip \/ ct = CompressionXZ) /\
      In (EvLookPath "mksquashfs", None) evs /\
      Args c =
        Path c :: path :: outputFile ::
          (if IsDir (Mode (fileinfo w (snd (filepath_Abs w path t)) path))
           then ["-keep-as-directory"] else [])
          ++ ["-comp"; ct].
Proof.
  unfold CreateSquashfs, bind.
  assert (Habs : exists evs0,
             snd (filepath_Abs w path t) = t ++ evs0 /\
             (forall c o, ~ In (EvRun c, o) evs0)).
  { unfold filepath_Abs, os_Getwd, query, bind, ret.
    destruct (filepath.IsAbs path).
    - exists []. split; [now rewrite app_nil_r | intros c o []].
    - destruct (fails w t EvGetwd); eexists; (split; [reflexivity|]);
        intros c o [Hin|[]]; discriminate. }
  destruct Habs as [evs0 [Ht0 Hno]].
  destruct (filepath_Abs w path t) as [[err|fp] t0]; cbn [snd] in Ht0; subst t0.
  - exists evs0. split; [reflexivity|].
    intros c o Hin. now apply Hno in Hin.
  - unfold os_Stat, query, ret, ExecStdoutArgsDir, execHelper, exec_LookPath,
      query, Run, call, bind, ret. cbn -[app IsDir].
    destruct (fails w (t ++ evs0) (EvStat path)) as [err|]; cbn -[app IsDir].
    + eexists. split; [rewrite <- app_assoc; reflexivity|].
      intros c o Hin. apply in_app_or in Hin. destruct Hin as [Hin|[Hin|[]]];
        [now apply Hno in Hin | discriminate].
    + destruct (GetSquashfsArgs ct) as [err|execArgs] eqn:Hargs;
        cbn -[app IsDir].
      * eexists. split; [rewrite <- app_assoc; reflexivity|].
        intros c o Hin. apply in_app_or in Hin.
        destruct Hin as [Hin|[Hin|[]]];
          [now apply Hno in Hin | discriminate].
      * apply GetSquashfsArgs_known in Hargs. destruct Hargs as [Hkind ->].
        destruct (fails w ((t ++ evs0) ++ [(EvStat path, None)])
                    (EvLookPath "mksquashfs")) as [err|]; cbn -[app IsDir].
        { eexists. split; [rewrite <- !app_assoc; reflexivity|].
          intros c o Hin. apply in_app_or in Hin.
          destruct Hin as [Hin|[Hin|[Hin|[]]]];
            [now apply Hno in Hin | discriminate | discriminate]. }
        { eexists. split; [rewrite <- !app_assoc; reflexivity|].
          intros c o Hin. apply in_app_or in Hin.
          destruct Hin as [Hin|[Hin|[Hin|[Hin|[]]]]];
            [now apply Hno in Hin | discriminate | discriminate |].
          injection Hin as <- <-. rewrite <- ?app_assoc. cbn -[app IsDir].
          split; [reflexivity|]. split; [exact Hkind|]. split.
          - apply in_or_app. right. cbn. auto.
          - destruct (IsDir (Mode (fileinfo w (t ++ evs0) path))); reflexivity. }
Qed.

Lemma CreateSquashfs_keeps_directory :
  exists c,
    In (EvRun c, None)
       (snd (CreateSquashfs world_ok "/srv/tree" "/out/root.squashfs" "gzip" []))
    /\ Args c = ["/usr/bin/mksquashfs"; "/srv/tree"; "/out/root.squashfs";
                 "-keep-as-directory"; "-comp"; "gzip"].
Proof.
  destruct (CreateSquashfs_command_line world_ok "/srv/tree"
              "/out/root.squashfs" "gzip" []) as [evs [Hevs Hline]].
  cbn [app] in Hevs.
  exists (mkCmd "/usr/bin/mksquashfs"
            ["/usr/bin/mksquashfs"; "/srv/tree"; "/out/root.squashfs";
             "-keep-as-directory"; "-comp"; "gzip"] "/srv").
  split; [vm_compute; auto 10|].
  destruct (Hline (mkCmd "/usr/bin/mksquashfs"
                     ["/usr/bin/mksquashfs"; "/srv/tree"; "/out/root.squashfs";
                      "-keep-as-directory"; "-comp"; "gzip"] "/srv") None)
    as [_ [_ [_ Hargs]]].
  - rewrite <- Hevs. vm_compute. auto 10.
  - rewrite Hargs. vm_compute. reflexivity.
Defined.

Lemma int_wrap_bounds z : MinInt <= int_wrap z <= MaxInt.
Proof.
  unfold int_wrap, MinInt, MaxInt.
  pose proof (Z.mod_pos_bound (z + 2 ^ 63) (2 ^ 64) ltac:(lia)). lia.
Qed.

Lemma int_wrap_congruent z : exists k, int_wrap z = z + k * 2 ^ 64.
Proof.
  unfold int_wrap. exists (- ((z + 2 ^ 63) / 2 ^ 64)).
  pose proof (Z.div_mod (z + 2 ^ 63) (2 ^ 64) ltac:(lia)). lia.
Qed.

Lemma sparse_size_congruent n :
  (int64 (int_mul (int_mul n 1000) 1000) - n * 1000000) mod 2 ^ 64 = 0.
Proof.
  unfold int64, int_mul.
  destruct (int_wrap_congruent (n * 1000)) as [k1 H1].
  destruct (int_wrap_congruent (int_wrap (n * 1000) * 1000)) as [k2 H2].
  destruct (int_wrap_congruent (int_wrap (int_wrap (n * 1000) * 1000)))
    as [k3 H3].
  rewrite H3, H2, H1.
  replace ((n * 1000 + k1 * 2 ^ 64) * 1000 + k2 * 2 ^ 64 + k3 * 2 ^ 64
             - n * 1000000)
    with ((k1 * 1000 + k2 + k3) * 2 ^ 64) by lia.
  apply Z.mod_mul. lia.
Qed.

(** X14: CreateSparseFile makes at most three requests: when the file
    cannot be opened it returns that error and does nothing else; otherwise
    it truncates the file and closes it, whether the truncation succeeded
    or not, and returns the outcome of the truncation.  The size it asks for
    always lies in the range of int64 and differs from
    nMegabytes * 1,000,000 by a multiple of 2^64. *)
Theorem CreateSparseFile_requests w filename n t :
  (forall err,
     fails w t (EvOpenFile filename 577 420) = Some err ->
     CreateSparseFile w filename n t =
       (Some err, t ++ [(EvOpenFile filename 577 420, Some err)])) /\
  (fails w t (EvOpenFile filename 577 420) = None ->
   exists sz o,
     CreateSparseFile w filename n t =
       (fails w (t ++ [(EvOpenFile filename 577 420, None)])
          (EvFtruncate filename sz),
        t ++ [(EvOpenFile filename 577 420, None);
              (EvFtruncate filename sz,
               fails w (t ++ [(EvOpenFile filename 577 420, None)])
                 (EvFtruncate filename sz));
              (EvClose filename, o)]) /\
     MinInt <= sz <= MaxInt /\
     (sz - n * 1000000) mod 2 ^ 64 = 0).
Proof.
  unfold CreateSparseFile, guard, bind, ret, call.
  change (Z.lor (Z.lor O_CREATE O_TRUNC) O_WRONLY) with 577.
  split.
  - intros err H. now rewrite H.
  - intros H. rewrite H.
    exists (int64 (int_mul (int_mul n 1000) 1000)). eexists.
    split; [rewrite <- !app_assoc; reflexivity|].
    split; [apply int_wrap_bounds | apply sparse_size_congruent].
Qed.

Lemma CreateSparseFile_failed_truncate_still_closes :
  exists sz o,
    CreateSparseFile world_truncate_fails "/tmp/disk.img" 10 [] =
      (Some "ftruncate: file too large",
       [(EvOpenFile "/tmp/disk.img" 577 420, None);
        (EvFtruncate "/tmp/disk.img" sz, Some "ftruncate: file too large");
        (EvClose "/tmp/disk.img", o)]) /\
    (sz - 10 * 1000000) mod 2 ^ 64 = 0.
Proof.
  destruct (proj2 (CreateSparseFile_requests world_truncate_fails
                     "/tmp/disk.img" 10 []) eq_refl)
    as [sz [o [Hrun [_ Hsize]]]].
  exists sz, o. split; [|exact Hsize].
  rewrite Hrun. reflexivity.
Defined.

(** ** The ext4 handlers *)

Lemma two_commands w cmd1 args1 cmd2 args2 t :
  ContainsSlash cmd1 = false -> ContainsSlash cmd2 = false ->
  exists evs p1 p2 n,
    snd (guard (ExecStdoutArgs w cmd1 args1) Some
           (ExecStdoutArgs w cmd2 args2) t) = t ++ evs /\
    fail_fast evs
      (fst (guard (ExecStdoutArgs w cmd1 args1) Some
              (ExecStdoutArgs w cmd2 args2) t)) /\
    map fst evs =
      firstn n [EvLookPath cmd1; EvRun (mkCmd p1 (p1 :: args1) EmptyString);
                EvLookPath cmd2; EvRun (mkCmd p2 (p2 :: args2) EmptyString)] /\
    (fst (guard (ExecStdoutArgs w cmd1 args1) Some
            (ExecStdoutArgs w cmd2 args2) t) = None -> n = 4%nat).
Proof.
  intros H1 H2.
  assert (Hff : FailFast (fun r => r)
                  (guard (ExecStdoutArgs w cmd1 args1) Some
                     (ExecStdoutArgs w cmd2 args2))).
  { apply FailFast_guard; [apply FailFast_ExecStdoutArgs .. | reflexivity]. }
  destruct (Hff t) as [evs [Hevs Hfast]].
  exists evs, (lookpath w t cmd1),
    (lookpath w (t ++ [(EvLookPath cmd1, None);
                       (EvRun (mkCmd (lookpath w t cmd1)
                                 (lookpath w t cmd1 :: args1) EmptyString),
                        None)]) cmd2).
  revert Hevs Hfast.
  unfold guard, ExecStdoutArgs, execHelper, exec_LookPath, query, Run, call,
    bind, ret.
  rewrite H1, H2. cbn -[app firstn].
  split_fails; intros Hevs Hfast; rewrite <- ?app_assoc in *; cbn [app] in *;
    apply app_inv_head in Hevs; subst evs.
  - exists 1%nat. repeat split; try assumption; discriminate.
  - exists 2%nat. repeat split; try assumption; discriminate.
  - exists 3%nat. repeat split; try assumption; discriminate.
  - exists 4%nat. repeat split; try assumption; discriminate.
  - exists 4%nat. repeat split; try assumption; reflexivity.
Qed.

(** X15: FormatAs with "ext4" looks up and runs mkfs -t ext4 -F on the file
    and then tune2fs -c0 -i0 on it, in that order, and stops at the first
    request that fails: tune2fs is not even looked up unless mkfs succeeded,
    the result is the outcome of the last request made, and a nil result
    means that all four requests were made and succeeded. *)
Theorem FormatAs_ext4_steps w filename t :
  exists evs mkfs tune2fs n,
    snd (FormatAs w filename "ext4" t) = t ++ evs /\
    fail_fast evs (fst (FormatAs w filename "ext4" t)) /\
    map fst evs =
      firstn n
        [EvLookPath "mkfs";
         EvRun (mkCmd mkfs [mkfs; "-t"; "ext4"; "-F"; filename] EmptyString);
         EvLookPath "tune2fs";
         EvRun (mkCmd tune2fs [tune2fs; "-c0"; "-i0"; filename] EmptyString)] /\
    (fst (FormatAs w filename "ext4" t) = None -> n = 4%nat).
Proof.
  unfold FormatAs, filesystemCommands. rewrite lookup_insert_eq.
  unfold formatExt4. now apply two_commands.
Qed.

Lemma FormatAs_ext4_without_mkfs :
  exists evs mkfs tune2fs,
    snd (FormatAs world_no_mkfs "/tmp/rootfs.img" "ext4" []) = [] ++ evs /\
    fail_fast evs (Some "executable file not found in $PATH") /\
    map fst evs =
      firstn 1
        [EvLookPath "mkfs";
         EvRun (mkCmd mkfs [mkfs; "-t"; "ext4"; "-F"; "/tmp/rootfs.img"]
                  EmptyString);
         EvLookPath "tune2fs";
         EvRun (mkCmd tune2fs [tune2fs; "-c0"; "-i0"; "/tmp/rootfs.img"]
                  EmptyString)].
Proof.
  destruct (FormatAs_ext4_steps world_no_mkfs "/tmp/rootfs.img" [])
    as [evs [mkfs [tune2fs [n [Hevs [Hfast [Hplan _]]]]]]].
  exists evs, mkfs, tune2fs. split; [exact Hevs|]. split; [exact Hfast|].
  cbn [app] in Hevs. vm_compute in Hevs. subst evs. reflexivity.
Defined.

(** X16: CheckFS with "ext4" looks up and runs e2fsck -y on the file and
    then e2fsck -y -f on it, in that order, and stops at the first request
    that fails: the forced pass is not started unless the first pass
    succeeded, the result is the outcome of the last request made, and a nil
    result means that all four requests were made and succeeded. *)
Theorem CheckFS_ext4_steps w filename t :
  exists evs first second n,
    snd (CheckFS w filename "ext4" t) = t ++ evs /\
    fail_fast evs (fst (CheckFS w filename "ext4" t)) /\
    map fst evs =
      firstn n
        [EvLookPath "e2fsck";
         EvRun (mkCmd first [first; "-y"; filename] EmptyString);
         EvLookPath "e2fsck";
         EvRun (mkCmd second [second; "-y"; "-f"; filename] EmptyString)] /\
    (fst (CheckFS w filename "ext4" t) = None -> n = 4%nat).
Proof.
  unfold CheckFS, checkCommands. rewrite lookup_insert_eq.
  unfold checkExt4. now apply two_commands.
Qed.

Lemma CheckFS_ext4_two_passes :
  exists evs first second,
    snd (CheckFS world_ok "/tmp/rootfs.img" "ext4" []) = [] ++ evs /\
    fail_fast evs None /\
    map fst evs =
      [EvLookPath "e2fsck";
       EvRun (mkCmd first [first; "-y"; "/tmp/rootfs.img"] EmptyString);
       EvLookPath "e2fsck";
       EvRun (mkCmd second [second; "-y"; "-f"; "/tmp/rootfs.img"] EmptyString)].
Proof.
  destruct (CheckFS_ext4_steps world_ok "/tmp/rootfs.img" [])
    as [evs [first [second [n [Hevs [Hfast [Hplan Hall]]]]]]].
  exists evs, first, second. split; [exact Hevs|]. split; [exact Hfast|].
  rewrite Hplan, (Hall eq_refl). reflexivity.
Defined.

(** ** The process id of the bus *)

Lemma Split_one_line s : one_line s = true -> Split newline s = [s].
Proof.
  induction s as [|c rest IH]; cbn [one_line Split]; [reflexivity|].
  intros H. apply andb_prop in H. destruct H as [Hc Hrest].
  apply negb_true_iff in Hc. rewrite Hc, (IH Hrest). reflexivity.
Qed.

Lemma Split_first_line pid rest :
  one_line pid = true ->
  hd EmptyString (Split newline (pid +:+ String newline rest)) = pid.
Proof.
  induction pid as [|c p IH]; cbn [one_line String.append Split].
  - intros _. reflexivity.
  - intros H. apply andb_prop in H. destruct H as [Hc Hp].
    apply negb_true_iff in Hc. specialize (IH Hp).
    change (hd EmptyString
              (Split newline (String c (p +:+ String newline rest)))
            = String c p).
    cbn [Split]. rewrite Hc.
    destruct (Split newline (p +:+ String newline rest)) as [|piece pieces];
      cbn [hd] in *; now subst.
Qed.

(** X17: when the supervisor is active and its pid file can be opened and
    read, killDBUS runs kill -9 on the first line of the file (on the whole
    content when it holds no line break), then closes and removes the pid
    file whatever the outcome, marks the bus inactive, and returns the
    outcome of kill. *)
Theorem killDBUS_signals_first_line w e t pid rest :
  dbusActive e = true ->
  fails w t (EvOpen (pidFile e)) = None ->
  fails w (t ++ [(EvOpen (pidFile e), None)]) (EvReadAll (pidFile e)) = None ->
  one_line pid = true ->
  contents w (t ++ [(EvOpen (pidFile e), None)]) (pidFile e) = pid \/
  contents w (t ++ [(EvOpen (pidFile e), None)]) (pidFile e)
    = pid +:+ String newline rest ->
  exists o1 o2,
    killDBUS w e t =
      ((set_dbusActive false e,
        fst (ExecStdoutArgs w "kill" ["-9"; pid]
               (t ++ [(EvOpen (pidFile e), None);
                      (EvReadAll (pidFile e), None)]))),
       snd (ExecStdoutArgs w "kill" ["-9"; pid]
              (t ++ [(EvOpen (pidFile e), None);
                     (EvReadAll (pidFile e), None)]))
         ++ [(EvClose (pidFile e), o1); (EvRemove (pidFile e), o2)]).
Proof.
  intros Hact Hopen Hread Hline Hcontents.
  assert (Hpid : hd EmptyString
                   (Split newline
                      (contents w (t ++ [(EvOpen (pidFile e), None)]) (pidFile e)))
                 = pid).
  { destruct Hcontents as [-> | ->].
    - now rewrite (Split_one_line pid Hline).
    - now apply Split_first_line. }
  unfold killDBUS. rewrite Hact. cbn [negb]. fold (pidFile e).
  unfold bind at 1. unfold call at 1. rewrite Hopen.
  unfold ioutil_ReadAll, query, bind. rewrite Hread, Hpid.
  rewrite <- app_assoc. cbn [app].
  destruct (ExecStdoutArgs w "kill" ["-9"; pid]
              (t ++ [(EvOpen (pidFile e), None); (EvReadAll (pidFile e), None)]))
    as [r t1].
  cbn. do 2 eexists. rewrite <- app_assoc. reflexivity.
Qed.

Lemma killDBUS_kills_4242 :
  exists o1 o2,
    killDBUS world_ok (manager_at "/srv/root" true) [] =
      ((manager_at "/srv/root" false, None),
       [(EvOpen "/srv/root/var/run/dbus/pid", None);
        (EvReadAll "/srv/root/var/run/dbus/pid", None);
        (EvLookPath "kill", None);
        (EvRun (mkCmd "/usr/bin/kill" ["/usr/bin/kill"; "-9"; "4242"]
                  EmptyString), None);
        (EvClose "/srv/root/var/run/dbus/pid", o1);
        (EvRemove "/srv/root/var/run/dbus/pid", o2)]).
Proof.
  destruct (killDBUS_signals_first_line world_ok (manager_at "/srv/root" true)
              [] "4242" "dbus") as [o1 [o2 Hkill]];
    try reflexivity.
  - right. reflexivity.
  - exists o1, o2. rewrite Hkill. reflexivity.
Defined.

(** ** Commands on the host *)

(** X18: as long as the manager is not in target mode (as a new manager
    is, until InitRoot), eopkg is run on the host: InstallPackages and
    InstallGroups run "install -y" followed by the packages, or by "-c" and
    the name for each group in the order given, and by --ignore-safety when
    asked for, and AddRepo runs "add-repo" with the identifier and the
    address; neither -D nor --ignore-comar is added, and the manager is
    returned as it was. *)
Theorem host_mode_commands w e t :
  targetMode e = false ->
  (forall ignoreSafety packages,
     InstallPackages w ignoreSafety packages e t =
       (r <- ExecStdoutArgs w "eopkg"
               (["install"; "-y"] ++ packages
                  ++ (if ignoreSafety then ["--ignore-safety"] else [])) ;;
        ret (e, r)) t) /\
  (forall ignoreSafety groups,
     InstallGroups w ignoreSafety groups e t =
       (r <- ExecStdoutArgs w "eopkg"
               (["install"; "-y"]
                  ++ flat_map (fun comp => ["-c"; comp]) groups
                  ++ (if ignoreSafety then ["--ignore-safety"] else [])) ;;
        ret (e, r)) t) /\
  (forall identifier uri,
     AddRepo w identifier uri e t =
       (r <- ExecStdoutArgs w "eopkg" ["add-repo"; identifier; uri] ;;
        ret (e, r)) t).
Proof.
  intros Hmode. split; [|split].
  - intros b packages.
    unfold InstallPackages, eopkgExecRoot. rewrite Hmode. cbn [negb].
    destruct b; cbn [app]; rewrite <- ?app_assoc, ?app_nil_r; reflexivity.
  - intros b groups.
    unfold InstallGroups, eopkgExecRoot. rewrite Hmode. cbn [negb].
    rewrite componentNames_flat_map. cbn [app].
    destruct b; cbn [app]; rewrite <- ?app_assoc, ?app_nil_r; reflexivity.
  - intros identifier uri.
    unfold AddRepo, eopkgExecRoot. now rewrite Hmode.
Qed.

Lemma new_manager_installs_on_host :
  snd (InstallGroups world_ok true ["system.base"; "desktop"] NewEopkgManager []) =
    [(EvLookPath "eopkg", None);
     (EvRun (mkCmd "/usr/bin/eopkg"
               ["/usr/bin/eopkg"; "install"; "-y"; "-c"; "system.base";
                "-c"; "desktop"; "--ignore-safety"] EmptyString), None)].
Proof.
  destruct (host_mode_commands world_ok NewEopkgManager [] eq_refl)
    as [_ [Hgroups _]].
  rewrite Hgroups. vm_compute. reflexivity.
Defined.

(** ** What a failed run leaves behind *)

(** X19: InitRoot never touches the cache source nor the mark of the
    running bus, and it changes the cache target only when it gets as far as
    the bind mount: a run that has not asked for the bind mount returns the
    manager with the cache target it had before. *)
Theorem InitRoot_sets_target_only_to_mount w rootPath e t :
  exists evs,
    snd (InitRoot w rootPath e t) = t ++ evs /\
    cacheSource (fst (fst (InitRoot w rootPath e t))) = cacheSource e /\
    dbusActive (fst (fst (InitRoot w rootPath e t))) = dbusActive e /\
    (cacheTarget (fst (fst (InitRoot w rootPath e t))) = cacheTarget e \/
     exists o,
       last evs =
         Some (EvBindMount (cacheSource e)
                 (cacheTarget (fst (fst (InitRoot w rootPath e t)))), o)).
Proof.
  destruct (FailFast_InitRoot w rootPath e t) as [evs [Hevs _]].
  exists evs. split; [exact Hevs|]. revert Hevs.
  unfold InitRoot, reqDirs, mkdirRequired, BindMount, guard, bind, ret, call.
  cbn -[filepath.Join app last].
  split_fails; intros Hevs; same_history Hevs; subst evs;
    (split; [reflexivity|]); (split; [reflexivity|]);
    try (left; reflexivity);
    right; eexists; reflexivity.
Qed.

Lemma InitRoot_without_symlinks_keeps_target :
  cacheTarget
    (fst (fst (InitRoot world_no_symlinks "/srv/root" NewEopkgManager [])))
    = EmptyString.
Proof.
  destruct (InitRoot_sets_target_only_to_mount world_no_symlinks "/srv/root"
              NewEopkgManager []) as [evs [Hevs [_ [_ [Hkept | [o Hlast]]]]]].
  - exact Hkept.
  - cbn [app] in Hevs. rewrite <- Hevs in Hlast. vm_compute in Hlast.
    discriminate Hlast.
Defined.

Lemma startDBUS_error_keeps_manager w e t e1 err t1 :
  startDBUS w e t = ((e1, Some err), t1) -> e1 = e.
Proof.
  unfold startDBUS, guard, bind, ret.
  destruct (dbusActive e); [discriminate|].
  destruct (ChrootExec w (root e) "dbus-uuidgen --ensure" t) as [[ea|] ta];
    [now intros H; injection H as <- _ _|].
  destruct (ChrootExec w (root e) "dbus-daemon --system" ta) as [[eb|] tb];
    [now intros H; injection H as <- _ _ | discriminate].
Qed.

(** X20: when FinalizeRoot fails in one of its steps 1 to 6 (unmount,
    baselayout, ldconfig, accounts, device nodes, start of the bus), it
    returns that error without any cleanup of its own and the manager is
    exactly as it was before the call. *)
Theorem FinalizeRoot_early_failure w e t ea err ta :
  finalizeSteps1to6 w e t = ((ea, Some err), ta) ->
  ea = e /\ FinalizeRoot w e t = ((e, Some err), ta).
Proof.
  unfold finalizeSteps1to6, FinalizeRoot, guard, bind.
  destruct (Unmount w (cacheTarget e) t) as [[e1|] t1];
    [unfold ret; intros H; injection H as <- <- <-; now split|].
  destruct (copyBaselayout w e t1) as [[e2|] t2];
    [unfold ret; intros H; injection H as <- <- <-; now split|].
  destruct (ChrootExec w (root e) "ldconfig" t2) as [[e3|] t3];
    [unfold ret; intros H; injection H as <- <- <-; now split|].
  destruct (configureDbus w e t3) as [[e4|] t4];
    [unfold ret; intros H; injection H as <- <- <-; now split|].
  destruct (CreateDeviceNode w (root e) DevNodeRandom t4) as [[e5|] t5];
    [unfold ret; intros H; injection H as <- <- <-; now split|].
  destruct (CreateDeviceNode w (root e) DevNodeURandom t5) as [[e6|] t6];
    [unfold ret; intros H; injection H as <- <- <-; now split|].
  intros H.
  pose proof (startDBUS_error_keeps_manager w e t6 ea err ta H) as ->.
  split; [reflexivity|]. rewrite H. reflexivity.
Qed.

Lemma FinalizeRoot_without_daemon :
  FinalizeRoot world_no_dbus_daemon (manager_at "/srv/root" false) [] =
    ((manager_at "/srv/root" false, Some "exit status 127"),
     snd (finalizeSteps1to6 world_no_dbus_daemon (manager_at "/srv/root" false) [])).
Proof.
  let r := eval vm_compute in
             (finalizeSteps1to6 world_no_dbus_daemon
                (manager_at "/srv/root" false) []) in
  match r with
  | ((?ea, Some ?err), ?ta) =>
      assert (Hsteps : finalizeSteps1to6 world_no_dbus_daemon
                         (manager_at "/srv/root" false) [] = ((ea, Some err), ta))
        by (vm_compute; reflexivity);
      destruct (FinalizeRoot_early_failure world_no_dbus_daemon
                  (manager_at "/srv/root" false) [] ea err ta Hsteps)
        as [_ Hrun]
  end.
  rewrite Hrun, Hsteps. reflexivity.
Defined.
